(** * Doc-Agent: clarification dialogue, quality assessment and pipeline coordination

    A shallow embedding of the conversational core of the Doc-Agent
    repository:

    - [conversation_manager.py]: [ConversationContext],
      [ConversationalOrchestrator] ([_calculate_confidence],
      [_analyze_and_clarify], [_ask_intelligent_questions],
      [_ask_basic_questions], [process_user_response],
      [_proceed_with_generation], [_get_last_questions]);
    - [orchestrator.py]: [_assess_document_quality] and the pre-population of
      the dialogue state in [generate_documentation_async];
    - [delegation_coordinator.py]: [DelegationCoordinator.coordinate];
    - [agents/base_agent.py]: [BaseAgent.execute_async].

    Modelling conventions.

    - Python [str] is modelled by [string] (one character per byte, so the
      text is taken to be ASCII); [len] is [String.length].
    - Python [int] is [Z]; Python [float] is modelled by exact rationals [Q].
    - A [dict] is an association list in insertion order whose keys are
      pairwise distinct; writing an existing key replaces the value in place,
      writing a new key appends, as [dict.__setitem__] does.
    - A value of type [Any] stored in [gathered_info] is observed by the code
      only through [bool(value)] and [str(value)]; it is modelled by the
      record of these two observations.
    - Calls to the hosted model (the agents' [execute_async]) and to
      [datetime.now()] are inputs of the model: every function that performs
      such a call receives the reply as an argument or reads it from an
      oracle, so that theorems quantify over every possible reply. Replies
      that the code parses are given in parsed form, typed as the dataclass
      annotates them (a question batch is a [List[str]]).
    - [print] statements and the writing of the output file are not
      modelled. *)

From Stdlib Require Import String Ascii List Bool Arith ZArith QArith Qminmax Lia Lqa.
From Stdlib Require DecimalString.
From Equations Require Import Equations.
Import ListNotations.

Set Implicit Arguments.

Open Scope string_scope.
Open Scope Z_scope.

(** ** Python string primitives *)

Module PyStr.

(** [str.isspace] on an ASCII character: TAB..CR, FS..US and the blank. *)
Definition isspace (c : ascii) : bool :=
  let n := nat_of_ascii c in
  (((9 <=? n) && (n <=? 13)) || ((28 <=? n) && (n <=? 32)))%nat.

Fixpoint lstrip (s : string) : string :=
  match s with
  | EmptyString => EmptyString
  | String c s' => if isspace c then lstrip s' else s
  end.

Fixpoint rstrip (s : string) : string :=
  match s with
  | EmptyString => EmptyString
  | String c s' =>
      match rstrip s' with
      | EmptyString => if isspace c then EmptyString else String c EmptyString
      | r => String c r
      end
  end.

(** [s.strip()] *)
Definition strip (s : string) : string := rstrip (lstrip s).

Definition lower_char (c : ascii) : ascii :=
  let n := nat_of_ascii c in
  if ((65 <=? n) && (n <=? 90))%nat then ascii_of_nat (n + 32) else c.

(** [s.lower()] *)
Fixpoint lower (s : string) : string :=
  match s with
  | EmptyString => EmptyString
  | String c s' => String (lower_char c) (lower s')
  end.

(** [pat in s] for two strings. *)
Fixpoint contains (pat s : string) : bool :=
  String.prefix pat s ||
  match s with
  | EmptyString => false
  | String _ s' => contains pat s'
  end.

(** [any(p in s for p in pats)] *)
Definition contains_any (pats : list string) (s : string) : bool :=
  existsb (fun p => contains p s) pats.

(** [len(s.split())]: the number of maximal runs of non-blank characters.
    [in_word] tells whether the previous character belonged to a word. *)
Fixpoint count_words_from (in_word : bool) (s : string) : nat :=
  match s with
  | EmptyString => 0
  | String c s' =>
      if isspace c then count_words_from false s'
      else (if in_word then 0 else 1) + count_words_from true s'
  end%nat.

Definition word_count (s : string) : nat := count_words_from false s.

(** [len(s.split('\n'))]: one more than the number of line feeds. *)
Fixpoint count_newlines (s : string) : nat :=
  match s with
  | EmptyString => 0
  | String c s' => (if Ascii.eqb c "010"%char then 1 else 0) + count_newlines s'
  end%nat.

Definition line_count (s : string) : nat := S (count_newlines s).

(** [sep.join(parts)] *)
Fixpoint join (sep : string) (parts : list string) : string :=
  match parts with
  | [] => ""
  | [p] => p
  | p :: rest => p ++ sep ++ join sep rest
  end.

(** [s.split(sep)] for a one-character separator. *)
Fixpoint split_on (sep : ascii) (s : string) : list string :=
  match s with
  | EmptyString => [""]
  | String c s' =>
      if Ascii.eqb c sep then "" :: split_on sep s'
      else match split_on sep s' with
           | [] => [String c ""]
           | p :: ps => String c p :: ps
           end
  end.

(** [s[:n]] *)
Definition take (n : nat) (s : string) : string := String.substring 0 n s.

Definition nl : string := String "010"%char "".

Definition is_empty (s : string) : bool :=
  match s with EmptyString => true | _ => false end.

End PyStr.

(** ** The dialogue state ([ConversationContext]) *)

(** What the code observes of an [Any] value: its truth value and [str()]. *)
Record PyValue : Type := mkPyValue {
  py_bool : bool;
  py_str : string
}.

(** A Python [str] seen as an [Any]: it is truthy iff it is not empty. *)
Definition of_str (s : string) : PyValue :=
  {| py_bool := negb (PyStr.is_empty s); py_str := s |}.

Record Exchange : Type := mkExchange {
  timestamp : string;
  agent : string;
  question : string;
  answer : string
}.

Definition PyDict : Type := list (string * PyValue).

Record ConversationContext : Type := mkContext {
  user_request : string;
  conversation_history : list Exchange;
  gathered_info : PyDict;
  clarification_round : Z;
  max_clarification_rounds : Z;
  confidence_score : Q;
  code_directory : option string;
  input_files : option (list string);
  last_questions : list string;
  empty_response_count : Z;
  max_empty_responses : Z;
  critique_iterations : Z;
  max_critique_iterations : Z;
  enable_self_critique : bool
}.

(** [d[k] = v] *)
Fixpoint dict_set (d : PyDict) (k : string) (v : PyValue) : PyDict :=
  match d with
  | [] => [(k, v)]
  | (k', v') :: d' =>
      if String.eqb k' k then (k', v) :: d' else (k', v') :: dict_set d' k v
  end.

Definition dict_keys (d : PyDict) : list string := map fst d.

(** [k in d] *)
Definition dict_mem (k : string) (d : PyDict) : bool :=
  existsb (String.eqb k) (dict_keys d).

Definition set_gathered_info (ctx : ConversationContext) (d : PyDict) :=
  mkContext ctx.(user_request) ctx.(conversation_history) d
    ctx.(clarification_round) ctx.(max_clarification_rounds)
    ctx.(confidence_score) ctx.(code_directory) ctx.(input_files)
    ctx.(last_questions) ctx.(empty_response_count) ctx.(max_empty_responses)
    ctx.(critique_iterations) ctx.(max_critique_iterations)
    ctx.(enable_self_critique).

Definition set_history (ctx : ConversationContext) (h : list Exchange) :=
  mkContext ctx.(user_request) h ctx.(gathered_info)
    ctx.(clarification_round) ctx.(max_clarification_rounds)
    ctx.(confidence_score) ctx.(code_directory) ctx.(input_files)
    ctx.(last_questions) ctx.(empty_response_count) ctx.(max_empty_responses)
    ctx.(critique_iterations) ctx.(max_critique_iterations)
    ctx.(enable_self_critique).

Definition set_round (ctx : ConversationContext) (r : Z) :=
  mkContext ctx.(user_request) ctx.(conversation_history) ctx.(gathered_info)
    r ctx.(max_clarification_rounds)
    ctx.(confidence_score) ctx.(code_directory) ctx.(input_files)
    ctx.(last_questions) ctx.(empty_response_count) ctx.(max_empty_responses)
    ctx.(critique_iterations) ctx.(max_critique_iterations)
    ctx.(enable_self_critique).

Definition set_confidence (ctx : ConversationContext) (c : Q) :=
  mkContext ctx.(user_request) ctx.(conversation_history) ctx.(gathered_info)
    ctx.(clarification_round) ctx.(max_clarification_rounds)
    c ctx.(code_directory) ctx.(input_files)
    ctx.(last_questions) ctx.(empty_response_count) ctx.(max_empty_responses)
    ctx.(critique_iterations) ctx.(max_critique_iterations)
    ctx.(enable_self_critique).

Definition set_last_questions (ctx : ConversationContext) (qs : list string) :=
  mkContext ctx.(user_request) ctx.(conversation_history) ctx.(gathered_info)
    ctx.(clarification_round) ctx.(max_clarification_rounds)
    ctx.(confidence_score) ctx.(code_directory) ctx.(input_files)
    qs ctx.(empty_response_count) ctx.(max_empty_responses)
    ctx.(critique_iterations) ctx.(max_critique_iterations)
    ctx.(enable_self_critique).

Definition set_empty_count (ctx : ConversationContext) (n : Z) :=
  mkContext ctx.(user_request) ctx.(conversation_history) ctx.(gathered_info)
    ctx.(clarification_round) ctx.(max_clarification_rounds)
    ctx.(confidence_score) ctx.(code_directory) ctx.(input_files)
    ctx.(last_questions) n ctx.(max_empty_responses)
    ctx.(critique_iterations) ctx.(max_critique_iterations)
    ctx.(enable_self_critique).

Definition set_critique_iterations (ctx : ConversationContext) (n : Z) :=
  mkContext ctx.(user_request) ctx.(conversation_history) ctx.(gathered_info)
    ctx.(clarification_round) ctx.(max_clarification_rounds)
    ctx.(confidence_score) ctx.(code_directory) ctx.(input_files)
    ctx.(last_questions) ctx.(empty_response_count) ctx.(max_empty_responses)
    n ctx.(max_critique_iterations)
    ctx.(enable_self_critique).

(** [ConversationContext.__post_init__]: the dataclass normalises its
    counters and clamps the confidence when it is created. *)
Definition post_init (ctx : ConversationContext) : ConversationContext :=
  let c := ctx.(confidence_score) in
  let c' := if Qle_bool 0 c && Qle_bool c 1 then c else Qmax 0 (Qmin 1 c) in
  mkContext ctx.(user_request) ctx.(conversation_history) ctx.(gathered_info)
    (if ctx.(clarification_round) <? 0 then 0 else ctx.(clarification_round))
    (if ctx.(max_clarification_rounds) <? 1 then 3
     else ctx.(max_clarification_rounds))
    c' ctx.(code_directory) ctx.(input_files) ctx.(last_questions)
    (if ctx.(empty_response_count) <? 0 then 0 else ctx.(empty_response_count))
    (if ctx.(max_empty_responses) <? 1 then 2 else ctx.(max_empty_responses))
    ctx.(critique_iterations) ctx.(max_critique_iterations)
    ctx.(enable_self_critique).

(** [ConversationContext(user_request=..., code_directory=..., input_files=...)] *)
Definition new_context (request : string) (dir : option string)
    (files : option (list string)) : ConversationContext :=
  post_init (mkContext request [] [] 0 3 0%Q dir files [] 0 2 0 2 true).

(** [ConversationContext.add_exchange] *)
Definition add_exchange (ctx : ConversationContext)
    (now agent_name q a : string) : ConversationContext :=
  set_history ctx (ctx.(conversation_history) ++ [mkExchange now agent_name q a]).

(** [ConversationContext.update_info] *)
Definition update_info (ctx : ConversationContext) (key : string)
    (value : PyValue) : ConversationContext :=
  set_gathered_info ctx (dict_set ctx.(gathered_info) key value).

(** ** The confidence scorer ([_calculate_confidence]) *)

Definition filler_values : list string := ["none"; "n/a"; "unknown"].

(** The guard of the scoring loop:
    [value and str(value).strip() and str(value).lower() not in [...]]. *)
Definition counts_as_fact (v : PyValue) : bool :=
  v.(py_bool)
  && negb (PyStr.is_empty (PyStr.strip v.(py_str)))
  && negb (existsb (String.eqb (PyStr.lower v.(py_str))) filler_values).

(** One iteration of the loop over [gathered_info.items()], on the pair
    [(score, total_possible)]. *)
Definition score_step (acc : Q * Q) (kv : string * PyValue) : Q * Q :=
  let '(score, total_possible) := acc in
  let value := snd kv in
  if counts_as_fact value then
    let content_length := String.length (PyStr.strip value.(py_str)) in
    let score1 :=
      if (5 <=? content_length)%nat then
        let score2 := (score + 1)%Q in
        if (50 <? content_length)%nat then (score2 + 0.3)%Q else score2
      else score in
    (score1, (total_possible + 1)%Q)
  else acc.

Definition score_totals (d : PyDict) : Q * Q :=
  fold_left score_step d (0%Q, 0%Q).

Definition Qlt_bool (x y : Q) : bool := negb (Qle_bool y x).

Definition info_score_of (st : Q * Q) : Q :=
  let '(score, total_possible) := st in
  if Qlt_bool 0 total_possible then (score / Qmax total_possible 1)%Q else 0%Q.

Definition info_score (ctx : ConversationContext) : Q :=
  info_score_of (score_totals ctx.(gathered_info)).

Definition quality_exchanges (h : list Exchange) : nat :=
  List.length
    (filter (fun ex => (20 <? String.length (PyStr.strip ex.(answer)))%nat) h).

Definition conversation_bonus (ctx : ConversationContext) : Q :=
  match ctx.(conversation_history) with
  | [] => 0%Q
  | h => Qmin (inject_Z (Z.of_nat (quality_exchanges h)) * 0.1)%Q 0.25%Q
  end.

Definition round_penalty (ctx : ConversationContext) : Q :=
  match ctx.(gathered_info) with
  | [] => if 2 <? ctx.(clarification_round)
          then (0.2 * inject_Z (ctx.(clarification_round) - 2))%Q else 0%Q
  | _ :: _ => 0%Q
  end.

Definition spam_penalty (ctx : ConversationContext) : Q :=
  (inject_Z ctx.(empty_response_count) * 0.15)%Q.

Definition _calculate_confidence (ctx : ConversationContext) : Q :=
  Qmax 0 (Qmin 1
    ((info_score ctx * 0.7) + conversation_bonus ctx
       - round_penalty ctx - spam_penalty ctx))%Q.

(** ** The clarification engine *)

(** What [_ask_intelligent_questions] gets out of the dispatcher's reply:
    [analysis = self._extract_json_from_response(response)] followed by
    [analysis.get("priority_questions", [])] and the slice [questions[:3]].
    Either these succeed and yield a list of questions (typed [List[str]] by
    the dataclass; an unparsable reply yields the empty mapping and hence the
    empty list), or one of them raises and the bare [except] falls back to
    [_ask_basic_questions]. *)
Inductive AnalysisReply : Type :=
| PriorityQuestions (questions : list string)
| AnalysisRaises.

(** What [process_user_response] gets out of the analyst's reply:
    [info = self._extract_json_from_response(extracted)] followed by
    [info.items()]. Either the parsed value is a mapping, or [.items()]
    raises and the bare [except] stores the raw answer. *)
Inductive Extraction : Type :=
| ExtractedInfo (info : PyDict)
| ExtractionRaises.

(** The two ways the engine's entry points return: the dictionary
    [{"status": "needs_clarification", "round": ..., "questions": ...,
    "context": ...}], or the tail call
    [return await self._proceed_with_generation()] on the current state. *)
Inductive StepResult : Type :=
| NeedsClarification (round : Z) (questions : list string)
    (ctx : ConversationContext)
| Proceed (ctx : ConversationContext).

Definition result_context (r : StepResult) : ConversationContext :=
  match r with
  | NeedsClarification _ _ ctx => ctx
  | Proceed ctx => ctx
  end.

Definition is_proceed (r : StepResult) : bool :=
  match r with Proceed _ => true | NeedsClarification _ _ _ => false end.

(** [_ask_basic_questions] *)
Definition _ask_basic_questions (ctx : ConversationContext) : StepResult :=
  let has k := dict_mem k ctx.(gathered_info) in
  let q0 : list string := [] in
  let q1 :=
    if negb (has "application_type") then
      (q0 ++ ["What type of application is this? (e.g., web app, mobile app, API, microservices)"])%list
    else q0 in
  let q2 :=
    if negb (has "document_types") && negb (has "document_type") then
      (q1 ++ ["What documentation do you need? (e.g., BRD, FRD, API docs, deployment guide)"])%list
    else q1 in
  let q3 :=
    if negb (has "key_features") && negb (has "features") then
      (q2 ++ ["What are the main features or capabilities of this application?"])%list
    else q2 in
  let q4 :=
    if negb (has "stakeholders") && (List.length q3 <? 3)%nat then
      (q3 ++ ["Who are the primary users or stakeholders?"])%list
    else q3 in
  let code_given :=
    match ctx.(code_directory) with
    | Some d => negb (PyStr.is_empty d)
    | None => false
    end
    || match ctx.(input_files) with
       | Some (_ :: _) => true
       | _ => false
       end in
  let q5 :=
    if negb (has "technical_stack") && negb (has "tech_stack")
       && (List.length q4 <? 3)%nat then
      if code_given then
        (q4 ++ ["Any specific technical requirements or constraints we should document?"])%list
      else (q4 ++ ["What technologies or platforms does this use?"])%list
    else q4 in
  let adaptive_questions :=
    if (List.length q5 <? 2)%nat then
      ["Can you provide more details about your documentation needs?";
       "What specific aspects should the documentation cover?";
       "Are there any particular requirements or constraints?"]
    else q5 in
  let ctx' := set_last_questions ctx (firstn 3 adaptive_questions) in
  NeedsClarification ctx'.(clarification_round) ctx'.(last_questions) ctx'.

(** [_ask_intelligent_questions]; the prompt sent to the dispatcher does not
    influence the state, its reply is the argument [reply]. *)
Definition _ask_intelligent_questions (reply : AnalysisReply)
    (ctx : ConversationContext) : StepResult :=
  let ctx1 := set_round ctx (ctx.(clarification_round) + 1) in
  match reply with
  | PriorityQuestions questions =>
      let ctx2 := set_last_questions ctx1 (firstn 3 questions) in
      NeedsClarification ctx2.(clarification_round) ctx2.(last_questions) ctx2
  | AnalysisRaises => _ask_basic_questions ctx1
  end.

(** [_analyze_and_clarify] *)
Definition _analyze_and_clarify (reply : AnalysisReply)
    (ctx0 : ConversationContext) : StepResult :=
  let confidence := _calculate_confidence ctx0 in
  let ctx := set_confidence ctx0 confidence in
  if Qle_bool 0.7 confidence then Proceed ctx
  else if ctx.(max_clarification_rounds) <=? ctx.(clarification_round) then
    Proceed ctx
  else if ctx.(max_empty_responses) <=? ctx.(empty_response_count) then
    Proceed ctx
  else if (2 <=? ctx.(clarification_round))
          && (match ctx.(gathered_info) with [] => true | _ => false end
              || (List.length ctx.(gathered_info) <? 2)%nat) then
    Proceed ctx
  else _ask_intelligent_questions reply ctx.

(** [_get_last_questions] *)
Definition _get_last_questions (ctx : ConversationContext) : list string :=
  match ctx.(last_questions) with
  | _ :: _ => ctx.(last_questions)
  | [] =>
      match rev ctx.(conversation_history) with
      | last :: _ =>
          filter (fun q => negb (PyStr.is_empty q))
            (map PyStr.strip (PyStr.split_on ";" last.(question)))
      | [] => []
      end
  end.

Definition unhelpful_patterns : list string :=
  ["idk"; "i don't know"; "dunno"; "skip"; "pass"; "whatever"; "n/a"; "none"].

(** The test that classifies an answer as unhelpful. *)
Definition is_unhelpful (response_clean : string) : bool :=
  PyStr.contains_any unhelpful_patterns (PyStr.lower response_clean)
  && (String.length response_clean <? 20)%nat.

(** The loop [for key, value in info.items(): if value: update_info(key, value)]. *)
Definition merge_extracted (ctx : ConversationContext) (info : PyDict)
    : ConversationContext :=
  fold_left
    (fun c (kv : string * PyValue) =>
       if (snd kv).(py_bool) then update_info c (fst kv) (snd kv) else c)
    info ctx.

(** The part of [process_user_response] that runs for an answer of at least
    three characters, up to (not including) the final call of
    [_analyze_and_clarify]: spam accounting, history, fact extraction. *)
Definition ingest_answer (now user_response : string) (extracted : Extraction)
    (ctx : ConversationContext) : ConversationContext :=
  let response_clean := PyStr.strip user_response in
  let ctx1 :=
    if is_unhelpful response_clean then
      set_empty_count ctx (ctx.(empty_response_count) + 1)
    else set_empty_count ctx 0 in
  let last_qs := _get_last_questions ctx1 in
  let ctx2 := add_exchange ctx1 now "System" (PyStr.join "; " last_qs) user_response in
  match extracted with
  | ExtractedInfo info => merge_extracted ctx2 info
  | ExtractionRaises => update_info ctx2 "latest_response" (of_str user_response)
  end.

(** [process_user_response]. [now] is the value of [datetime.now()] used by
    [add_exchange], [extracted] and [reply] are what the analyst and the
    dispatcher answer if they are asked. *)
Definition process_user_response (now user_response : string)
    (extracted : Extraction) (reply : AnalysisReply)
    (ctx : ConversationContext) : StepResult :=
  let response_clean := PyStr.strip user_response in
  if PyStr.is_empty response_clean || (String.length response_clean <? 3)%nat then
    let ctx1 := set_empty_count ctx (ctx.(empty_response_count) + 1) in
    if ctx1.(max_empty_responses) <=? ctx1.(empty_response_count) then
      Proceed ctx1
    else
      NeedsClarification ctx1.(clarification_round) ctx1.(last_questions) ctx1
  else
    _analyze_and_clarify reply (ingest_answer now user_response extracted ctx).

(** Whether [process_user_response] reaches its final call of
    [_analyze_and_clarify] (it does not for an answer shorter than three
    characters). *)
Definition reaches_analysis (user_response : string) : bool :=
  let response_clean := PyStr.strip user_response in
  negb (PyStr.is_empty response_clean || (String.length response_clean <? 3)%nat).

(** *** Driving a dialogue *)

(** Everything the outside world contributes to one call of
    [process_user_response]. *)
Record Turn : Type := mkTurn {
  turn_now : string;
  turn_answer : string;
  turn_extracted : Extraction;
  turn_reply : AnalysisReply
}.

(** A dialogue: after the result [r] of the previous call, feed the user's
    answers one by one to [process_user_response] for as long as the engine
    asks for clarification. [calls] counts the calls of
    [_analyze_and_clarify] made so far. *)
Fixpoint drive (turns : list Turn) (calls : nat) (r : StepResult)
    : nat * StepResult :=
  match r, turns with
  | NeedsClarification _ _ ctx, t :: rest =>
      drive rest
        (if reaches_analysis t.(turn_answer) then S calls else calls)
        (process_user_response t.(turn_now) t.(turn_answer)
           t.(turn_extracted) t.(turn_reply) ctx)
  | _, _ => (calls, r)
  end.

(** A whole dialogue, from the initial analysis on (as [start_conversation]
    and [generate_documentation_async] begin it). *)
Definition dialogue (first : AnalysisReply) (turns : list Turn)
    (ctx : ConversationContext) : nat * StepResult :=
  drive turns 1 (_analyze_and_clarify first ctx).

(** The state that [generate_documentation_async] builds before it calls
    [_analyze_and_clarify] for the first time: a fresh context whose
    [last_questions] is replaced by the dispatcher's
    [clarification_questions] when that entry is present and not empty. *)
Definition prepopulate_context (request : string) (dir : option string)
    (files : option (list string))
    (clarification_questions : option (list string)) : ConversationContext :=
  let conv_context := new_context request dir files in
  match clarification_questions with
  | Some (q :: qs) => set_last_questions conv_context (q :: qs)
  | _ => conv_context
  end.


(** ** The quality assessor ([_assess_document_quality]) *)

Inductive Confidence : Type := High | Medium | Low.

Definition Confidence_eqb (a b : Confidence) : bool :=
  match a, b with
  | High, High | Medium, Medium | Low, Low => true
  | _, _ => false
  end.

Record Assessment : Type := mkAssessment {
  confidence : Confidence;
  flags : list string;
  issues : list string;
  word_count : nat;
  has_sections : bool;
  completeness_score : Q
}.

Definition section_indicators : list string :=
  ["#"; "##"; "###"; "Introduction"; "Overview"; "Requirements"; "Conclusion"].

Definition error_indicators : list string :=
  ["Error:"; "Failed:"; "not available"; "not found"; "Exception"].

Definition placeholders : list string :=
  ["TODO"; "TBD"; "[Insert"; "[Add"; "PLACEHOLDER"].

(** The error-indicator rule's condition. *)
Definition has_error_indicator (document : string) : bool :=
  PyStr.contains_any error_indicators document.

Definition has_placeholder (document : string) : bool :=
  PyStr.contains_any placeholders document.

(** [sum(completeness_factors)] *)
Definition completeness_count (document : string) : nat :=
  let wc := PyStr.word_count document in
  let b2n (b : bool) : nat := if b then 1%nat else 0%nat in
  (b2n (1000 <=? wc)
   + b2n (PyStr.contains_any section_indicators document)
   + b2n (3 <=? List.length
                  (filter (fun s => PyStr.contains s document) section_indicators))
   + b2n (PyStr.contains "requirements" (PyStr.lower document)
          || PyStr.contains "specification" (PyStr.lower document))
   + b2n (20 <=? PyStr.line_count document))%nat.

(** The score is [k/5] with [k <= 5]; below one half it is formatted with
    [:.2f] for the issue text. *)
Definition format_score (k : nat) : string :=
  match k with
  | 0%nat => "0.00" | 1%nat => "0.20" | 2%nat => "0.40" | 3%nat => "0.60"
  | 4%nat => "0.80" | _ => "1.00"
  end.

(** [_assess_document_quality]; the arguments [doc_type] and [context] are
    not read by the function. The assignments are carried out in the order
    of the source on the three mutable entries of the dictionary. *)
Definition _assess_document_quality (document : string) : Assessment :=
  let wc := PyStr.word_count document in
  (* document length *)
  let '(c1, f1, i1) :=
    if (wc <? 500)%nat then
      (Low, ["low_confidence"], ["Document too short (< 500 words)"])
    else if (wc <? 1000)%nat then
      (Medium, [], ["Document relatively short (< 1000 words)"])
    else (High, [], []) in
  (* standard sections *)
  let sections := PyStr.contains_any section_indicators document in
  let '(c2, f2, i2) :=
    if negb sections then
      (Low, (f1 ++ ["low_confidence"])%list,
       (i1 ++ ["Missing standard document sections"])%list)
    else (c1, f1, i1) in
  (* error messages *)
  let '(c3, f3, i3) :=
    if has_error_indicator document then
      (Low, (f2 ++ ["low_confidence"])%list,
       (i2 ++ ["Document contains error messages"])%list)
    else (c2, f2, i2) in
  (* placeholder text *)
  let '(c4, f4, i4) :=
    if has_placeholder document then
      (Medium, f3, (i3 ++ ["Document contains placeholder text"])%list)
    else (c3, f3, i3) in
  (* completeness *)
  let k := completeness_count document in
  let score := (inject_Z (Z.of_nat k) / 5)%Q in
  let '(c5, f5, i5) :=
    if Qlt_bool score 0.5 then
      (Low, (f4 ++ ["low_confidence"])%list,
       (i4 ++ [("Low completeness score: " ++ format_score k)%string])%list)
    else (c4, f4, i4) in
  mkAssessment c5 f5 i5 wc sections score.

(** ["low_confidence" in flags] *)
Definition flagged_low (fl : list string) : bool :=
  existsb (String.eqb "low_confidence") fl.

(** ** The agent boundary ([BaseAgent.execute_async]) *)

(** What [await self.agent.run(full_message)] followed by [str(result)] does:
    it yields a text, or an exception [e] is raised, of which the handler
    only uses [str(e)]. *)
Inductive RunOutcome : Type :=
| Returns (text : string)
| Raises (str_e : string).

Record BaseAgent : Type := mkAgent {
  name : string;
  registered : bool;             (* [self.agent] is set *)
  run : string -> RunOutcome     (* [self.agent.run] *)
}.

(** [_format_context] *)
Definition _format_context (context : list (string * string)) : string :=
  PyStr.join PyStr.nl (map (fun kv => fst kv ++ ": " ++ snd kv) context).

Definition full_message (user_message : string)
    (context : list (string * string)) : string :=
  match context with
  | [] => user_message
  | _ :: _ =>
      "Context from previous steps:" ++ PyStr.nl ++ _format_context context
      ++ PyStr.nl ++ PyStr.nl ++ user_message
  end.

(** [execute_async]; [sdk_available] is the module constant
    [AGENT_SDK_AVAILABLE]. *)
Definition execute_async (sdk_available : bool) (a : BaseAgent)
    (user_message : string) (context : list (string * string)) : string :=
  if negb sdk_available then
    "Error: Microsoft Agent Framework not available for " ++ a.(name)
  else if negb a.(registered) then
    "Error: " ++ a.(name) ++ " not registered. Call register_agent() first."
  else
    match a.(run) (full_message user_message context) with
    | Returns text => text
    | Raises str_e => "Error in " ++ a.(name) ++ ": " ++ str_e
    end.

(** The calls of [execute_async] that end in one of its three failure
    branches. *)
Definition execution_fails (sdk_available : bool) (a : BaseAgent)
    (user_message : string) (context : list (string * string)) : bool :=
  negb sdk_available
  || negb a.(registered)
  || match a.(run) (full_message user_message context) with
     | Returns _ => false
     | Raises _ => true
     end.

(** ** The pipeline coordinator ([DelegationCoordinator.coordinate]) *)

Inductive Role : Type :=
| Dispatcher | Analyst | Researcher | Writer | SecurityReviewer | Editor.


(** One call [self.orchestrator.<role>.execute_async(prompt, {})]. *)
Record Call : Type := mkCall {
  callee : Role;
  prompt : string
}.

(** What the coordinator reads in the parsed dispatcher reply. *)
Record DispatchInfo : Type := mkDispatchInfo {
  needs_clarification : bool;
  clarification_questions : option (list string)
}.

(** The [context] dictionary built by [generate_documentation_async]. *)
Record CoordContext : Type := mkCoordContext {
  ctx_code_directory : option string;
  ctx_input_files : option (list string)
}.

Record CoordOutput : Type := mkCoordOutput {
  out_document : string;
  out_output_path : string;
  out_document_type : string;
  out_workflow : list string
}.

Inductive CoordResult : Type :=
| CoordNeedsClarification (info : DispatchInfo)
| CoordCompleted (out : CoordOutput).

(** The coordinator's program runs in a monad that logs, in order, every
    call made to an agent. *)
Definition Logged (A : Type) : Type := list Call -> A * list Call.

Definition ret {A : Type} (a : A) : Logged A := fun log => (a, log).

Definition bind {A B : Type} (m : Logged A) (k : A -> Logged B) : Logged B :=
  fun log => let '(a, log') := m log in k a log'.

Notation "x <- m ;; k" := (bind m (fun x => k))
  (at level 61, m at next level, right associativity).

(** [context.get('code_directory') or context.get('input_files')] *)
Definition code_supplied (context : CoordContext) : bool :=
  match context.(ctx_code_directory) with
  | Some d => negb (PyStr.is_empty d)
  | None => false
  end
  || match context.(ctx_input_files) with
     | Some (_ :: _) => true
     | _ => false
     end.

Definition no_code_placeholder : string := "No code provided for analysis".

Definition dispatch_prompt (request : string) : string :=
  "Analyze this documentation request and provide:" ++ PyStr.nl
  ++ "1. Document type(s) needed (BRD, FRD, NFRD, CLOUD, SECURITY, API, GENERIC)"
  ++ PyStr.nl ++ "2. Workflow agents required" ++ PyStr.nl
  ++ "3. Any clarifications needed" ++ PyStr.nl ++ PyStr.nl
  ++ "Request: " ++ request ++ PyStr.nl ++ PyStr.nl
  ++ "Respond in JSON format with: document_type, workflow, needs_clarification".

Definition analyst_prompt (request : string) : string :=
  "Extract and structure requirements from:" ++ PyStr.nl ++ request.

Definition researcher_prompt (request : string) (context : CoordContext)
    : string :=
  "Analyze code for documentation:" ++ PyStr.nl ++ "Request: " ++ request
  ++ PyStr.nl ++ "Directory: "
  ++ match context.(ctx_code_directory) with Some d => d | None => "None" end.

(** The text of the synthesis prompt before and after the code analysis. *)
Definition writer_prompt_head (request dispatch_result requirements : string)
    : string :=
  "Generate comprehensive documentation based on:" ++ PyStr.nl ++ PyStr.nl
  ++ "=== USER REQUEST ===" ++ PyStr.nl ++ request ++ PyStr.nl ++ PyStr.nl
  ++ "=== DISPATCH ANALYSIS ===" ++ PyStr.nl ++ dispatch_result
  ++ PyStr.nl ++ PyStr.nl
  ++ "=== REQUIREMENTS (from Analyst) ===" ++ PyStr.nl ++ requirements
  ++ PyStr.nl ++ PyStr.nl
  ++ "=== CODE ANALYSIS (from Researcher) ===" ++ PyStr.nl.

Definition writer_prompt_tail : string :=
  PyStr.nl ++ PyStr.nl
  ++ "Generate complete, well-structured documentation in Markdown format.".

Definition writer_prompt
    (request dispatch_result requirements code_analysis : string) : string :=
  writer_prompt_head request dispatch_result requirements
  ++ code_analysis ++ writer_prompt_tail.

Definition security_prompt (document : string) : string :=
  "Review this document for security and compliance issues:" ++ PyStr.nl
  ++ PyStr.nl ++ PyStr.take 2500 document ++ PyStr.nl ++ PyStr.nl
  ++ "Provide:" ++ PyStr.nl ++ "1. Security concerns found" ++ PyStr.nl
  ++ "2. Compliance requirements" ++ PyStr.nl ++ "3. Recommended changes".

Definition editor_prompt (document security_result : string) : string :=
  "Polish and format this documentation:" ++ PyStr.nl ++ PyStr.nl
  ++ document ++ PyStr.nl ++ PyStr.nl ++ "Security Feedback:" ++ PyStr.nl
  ++ security_result ++ PyStr.nl ++ PyStr.nl
  ++ "Apply professional formatting, fix any issues, and ensure consistency.".

Section Coordinator.

(** The reply of each agent to a prompt ([execute_async] returns a text in
    every case), and the outcome of parsing the dispatcher's reply: [None]
    when [json.loads] or [.get] raise and the handler continues with the
    empty record. *)
Variable ask : Role -> string -> string.
Variable parse_dispatch : string -> option DispatchInfo.

Definition call (r : Role) (p : string) : Logged string :=
  fun log => (ask r p, (log ++ [mkCall r p])%list).

(** Phase 2. The analyst's coroutine is created first and the researcher's
    only when code was supplied; [asyncio.gather] starts them in that
    order and returns once both have finished. *)
Definition parallel_research (request : string) (context : CoordContext)
    : Logged (string * string) :=
  if code_supplied context then
    requirements <- call Analyst (analyst_prompt request) ;;
    code_analysis <- call Researcher (researcher_prompt request context) ;;
    ret (requirements, code_analysis)
  else
    requirements <- call Analyst (analyst_prompt request) ;;
    ret (requirements, no_code_placeholder).

(** Phases 2 to 4 and the result dictionary; [stamp] is the formatted
    [datetime.now()] used for the name of the output file (writing the
    file is not modelled). *)
Definition generation_phases (stamp request dispatch_result : string)
    (context : CoordContext) : Logged CoordResult :=
  research <- parallel_research request context ;;
  let '(requirements, code_analysis) := research in
  document <- call Writer
    (writer_prompt request dispatch_result requirements code_analysis) ;;
  security_result <- call SecurityReviewer (security_prompt document) ;;
  final_document <- call Editor (editor_prompt document security_result) ;;
  ret (CoordCompleted
         {| out_document := final_document;
            out_output_path := "outputs/GENERIC_delegation_" ++ stamp ++ ".md";
            out_document_type := "GENERIC";
            out_workflow :=
              ["Dispatcher"; "Analyst"; "Researcher"; "Writer";
               "Security Reviewer"; "Editor"] |}).

(** [coordinate]: phase 1, then either the early return that asks for
    clarification or the remaining phases. *)
Definition coordinate (stamp request : string) (context : CoordContext)
    : Logged CoordResult :=
  dispatch_result <- call Dispatcher (dispatch_prompt request) ;;
  match parse_dispatch dispatch_result with
  | Some info =>
      if info.(needs_clarification) then ret (CoordNeedsClarification info)
      else generation_phases stamp request dispatch_result context
  | None => generation_phases stamp request dispatch_result context
  end.

End Coordinator.

(** ** The self-critique loop ([_proceed_with_generation]) *)

(** The result of [generate_documentation_async] as the loop reads it:
    [result['document']], [result.get("flags", [])] and
    [result.get('quality', {})]. *)
Record GenResult : Type := mkGenResult {
  document : string;
  result_flags : list string;
  quality : option Assessment
}.

(** The external calls made so far: the requests passed to
    [generate_documentation_async] and the prompts sent to the editor, most
    recent last. *)
Record Trace : Type := mkTrace {
  generation_requests : list string;
  critique_prompts : list string
}.


Definition string_of_Z (z : Z) : string :=
  DecimalString.NilZero.string_of_int (Z.to_int z).

(** The enriched request built at the start of [_proceed_with_generation]. *)
Definition enriched_request (ctx : ConversationContext) : string :=
  let base := ctx.(user_request) in
  let with_info :=
    match ctx.(gathered_info) with
    | [] => base
    | d =>
        base ++ PyStr.nl ++ PyStr.nl ++ "Additional Context:" ++ PyStr.nl
        ++ String.concat ""
             (map (fun kv => "- " ++ fst kv ++ ": " ++ (snd kv).(py_str) ++ PyStr.nl) d)
    end in
  match ctx.(conversation_history) with
  | [] => with_info
  | h =>
      with_info ++ PyStr.nl ++ PyStr.nl ++ "From our conversation:" ++ PyStr.nl
      ++ String.concat ""
           (map (fun ex => "Q: " ++ ex.(question) ++ PyStr.nl
                           ++ "A: " ++ ex.(answer) ++ PyStr.nl ++ PyStr.nl) h)
  end.

Definition critique_prompt (result : GenResult) : string :=
  let quality_issues :=
    match result.(quality) with Some q => q.(issues) | None => [] end in
  "Critique this document and suggest specific improvements:" ++ PyStr.nl
  ++ PyStr.nl ++ "Document Preview:" ++ PyStr.nl
  ++ PyStr.take 2000 result.(document) ++ PyStr.nl ++ PyStr.nl
  ++ "Detected Issues:" ++ PyStr.nl
  ++ PyStr.join PyStr.nl (map (fun issue => "- " ++ issue) quality_issues)
  ++ PyStr.nl ++ PyStr.nl ++ "Provide:" ++ PyStr.nl
  ++ "1. Specific problems with structure, content, or completeness" ++ PyStr.nl
  ++ "2. Concrete suggestions for improvement" ++ PyStr.nl
  ++ "3. Missing sections that should be added" ++ PyStr.nl
  ++ "4. Content that needs expansion" ++ PyStr.nl ++ PyStr.nl
  ++ "Format your response as actionable recommendations.".

Definition critique_feedback (iteration : Z) (critique : string) : string :=
  PyStr.nl ++ PyStr.nl ++ "=== SELF-CRITIQUE FEEDBACK (Iteration "
  ++ string_of_Z iteration ++ ") ===" ++ PyStr.nl
  ++ "Previous attempt had the following issues:" ++ PyStr.nl ++ critique
  ++ PyStr.nl ++ PyStr.nl
  ++ "Please address these issues in the regenerated document." ++ PyStr.nl.

(** [new_quality.get('confidence') != 'low'] *)
Definition quality_not_low (result : GenResult) : bool :=
  match result.(quality) with
  | Some q => negb (Confidence_eqb q.(confidence) Low)
  | None => true
  end.

(** One activation of [_proceed_with_generation] either returns [result], or
    ends in the recursive call [return await self._proceed_with_generation()]
    on the state it has reached. *)
Inductive PassResult : Type :=
| Done (result : GenResult) (ctx : ConversationContext) (tr : Trace)
| Again (ctx : ConversationContext) (tr : Trace).

Section SelfCritique.

(** The outside world: what the [n]-th call of
    [generate_documentation_async] returns for a request, and what the
    editor answers to the [n]-th critique prompt. *)
Variable generate : nat -> string -> GenResult.
Variable editor_reply : nat -> string -> string.

Definition call_generate (tr : Trace) (request : string)
    : GenResult * Trace :=
  (generate (List.length tr.(generation_requests)) request,
   mkTrace (tr.(generation_requests) ++ [request])%list tr.(critique_prompts)).

Definition call_editor (tr : Trace) (p : string) : string * Trace :=
  (editor_reply (List.length tr.(critique_prompts)) p,
   mkTrace tr.(generation_requests) (tr.(critique_prompts) ++ [p])%list).

(** The body of [_proceed_with_generation] up to its recursive call. *)
Definition critique_pass (ctx : ConversationContext) (tr : Trace)
    : PassResult :=
  let enriched := enriched_request ctx in
  let '(result, tr1) := call_generate tr enriched in
  if ctx.(enable_self_critique)
     && flagged_low result.(result_flags)
     && (ctx.(critique_iterations) <? ctx.(max_critique_iterations)) then
    let ctx1 := set_critique_iterations ctx (ctx.(critique_iterations) + 1) in
    let '(critique, tr2) := call_editor tr1 (critique_prompt result) in
    let enriched' :=
      enriched ++ critique_feedback ctx1.(critique_iterations) critique in
    let ctx2 :=
      update_info ctx1
        ("critique_iteration_" ++ string_of_Z ctx1.(critique_iterations))
        (of_str critique) in
    let '(result', tr3) := call_generate tr2 enriched' in
    if quality_not_low result' then Done result' ctx2 tr3
    else if ctx2.(critique_iterations) <? ctx2.(max_critique_iterations) then
      Again ctx2 tr3
    else Done result' ctx2 tr3
  else Done result ctx tr1.

(** The number of critique rounds that the state still allows. *)
Definition rounds_left (ctx : ConversationContext) : nat :=
  Z.to_nat (ctx.(max_critique_iterations) - ctx.(critique_iterations)).

(** A value packed with the proof that it is the value of the term. *)
Definition inspect {A : Type} (a : A) : {b : A | a = b} :=
  exist _ a eq_refl.

Equations? _proceed_with_generation (ctx : ConversationContext) (tr : Trace)
    : GenResult * ConversationContext * Trace
    by wf (rounds_left ctx) lt :=
  _proceed_with_generation ctx tr with inspect (critique_pass ctx tr) => {
    | exist _ (Done result ctx' tr') _ => (result, ctx', tr');
    | exist _ (Again ctx' tr') Heq => _proceed_with_generation ctx' tr' }.
Proof.
  (* the recursive call is only made after the round counter was
     incremented below its bound *)
  revert Heq. unfold critique_pass, call_generate, call_editor.
  destruct (enable_self_critique ctx && _ && _) eqn:G; [|discriminate].
  apply andb_prop in G. destruct G as [_ G]. apply Z.ltb_lt in G.
  destruct (quality_not_low _); [discriminate|].
  destruct (_ <? _) eqn:L; [|discriminate].
  intros H. injection H as <- _.
  unfold rounds_left, update_info, set_gathered_info, set_critique_iterations.
  simpl. lia.
Qed.

End SelfCritique.

(** ** Notions used to state the properties *)


(** What the scoring loop maintains: the score is not negative and the
    denominator is either zero or at least one. *)
Definition totals_ok (st : Q * Q) : Prop :=
  (0 <= fst st /\ (snd st == 0 \/ 1 <= snd st))%Q.

(** A fact that earns the bonus for detailed content. *)
Definition earns_bonus (v : PyValue) : bool :=
  counts_as_fact v && (50 <? String.length (PyStr.strip v.(py_str)))%nat.

Definition detailed_answer : string :=
  "The checkout flow covers cart review, payment and order confirmation".

(** A dialogue state holding one detailed fact (68 characters). *)
Definition one_detailed_fact : ConversationContext :=
  update_info (new_context "Create FRD" None None)
    "key_features" (of_str detailed_answer).

(** The states whose counters are as [__post_init__] leaves them. *)
Definition counters_valid (ctx : ConversationContext) : Prop :=
  0 <= ctx.(clarification_round) /\ 1 <= ctx.(max_clarification_rounds)
  /\ 0 <= ctx.(empty_response_count) /\ 1 <= ctx.(max_empty_responses).






(** A value whose text is empty or consists of blanks only. *)
Definition blank_value (v : PyValue) : bool :=
  PyStr.is_empty (PyStr.strip v.(py_str)).

(** The exchange that [process_user_response] records for an answer. *)
Definition recorded_exchange (now user_response : string)
    (ctx : ConversationContext) : Exchange :=
  mkExchange now "System" (PyStr.join "; " (_get_last_questions ctx))
    user_response.

(** The facts after the extraction step of [process_user_response]. *)
Definition facts_after_extraction (user_response : string)
    (extracted : Extraction) (d : PyDict) : PyDict :=
  match extracted with
  | ExtractedInfo info =>
      fold_left
        (fun acc (kv : string * PyValue) =>
           if (snd kv).(py_bool) then dict_set acc (fst kv) (snd kv) else acc)
        info d
  | ExtractionRaises => dict_set d "latest_response" (of_str user_response)
  end.

(** A fresh dialogue state for the default request of the examples. *)
Definition fresh_context : ConversationContext :=
  new_context "Generate documentation" None None.


(** The dispatcher proposes four clarification questions. *)
Definition four_questions : list string :=
  ["What type of application is this?"; "Who will read the document?";
   "Which document type do you need?"; "Is source code available?"].

(** A short draft with headings, the word "requirements" and a marker of
    unfinished text. *)
Definition short_draft_with_marker : string := "### requirements TODO".

(** A registered dispatcher whose [run] raises [Exception("timeout")]. *)
Definition timing_out_dispatcher : BaseAgent :=
  mkAgent "Dispatcher" true (fun _ => Raises "timeout").

(** One line of a long reply of the hosted service. *)
Definition echoed_line : string :=
  "## Requirements section text" ++ PyStr.nl.

(** A registered writer whose [run] raises an exception that carries 400
    such lines as its message. *)
Definition echoing_writer : BaseAgent :=
  mkAgent "Technical Writer" true
    (fun _ => Raises (String.concat "" (repeat echoed_line 400))).







(** ** Further parts of the program

    The remaining definitions embed what surrounds the functions above:

    - [conversation_manager.py]: [get_context_summary],
      [start_conversation], [_auto_detect_context],
      [_detect_technologies], [_suggest_doc_types_from_tech] and the
      brace matching of [_extract_json_from_response];
    - [orchestrator.py]: the input loop of [generate_documentation_async],
      [_normalize_doc_type], [_truncate_for_log], [_estimate_tokens] and
      [_chunk_content];
    - [delegation_coordinator.py]: the parsing of the dispatcher's reply;
    - [agents/base_agent.py]: the store shared by the agents
      ([send_message_to_agent], [query_agent], [publish_state],
      [get_shared_state], [request_handover], [get_messages_for_agent],
      [clear_shared_context]);
    - [tools/file_tools.py]: [_extract_key_patterns].

    The class attributes that hold the shared store are modelled by a
    value that every operation takes and returns.  What the code reads
    from the file system (whether a directory exists, the names it
    holds) is an input, like the replies of the agents. *)

(** [d.get(k)] *)
Fixpoint dict_get (d : PyDict) (k : string) : option PyValue :=
  match d with
  | [] => None
  | (k', v) :: d' => if String.eqb k' k then Some v else dict_get d' k
  end.

(** One iteration of the merge loop of [process_user_response], on the
    facts alone. *)
Definition merge_step (acc : PyDict) (kv : string * PyValue) : PyDict :=
  if (snd kv).(py_bool) then dict_set acc (fst kv) (snd kv) else acc.

(** The keys of a dictionary are pairwise distinct. *)
Definition keys_distinct (d : PyDict) : Prop := NoDup (dict_keys d).

(** [0.0 <= x <= 1.0] *)
Definition in_unit_interval (x : Q) : Prop := (0 <= x /\ x <= 1)%Q.

(** *** The interactive loop of [generate_documentation_async] *)

Definition proceed_commands : list string := ["proceed"; "continue"; "skip"].

(** The loop
    [while result.get('status') == 'needs_clarification': ...] that reads
    the user's lines. A [Turn] carries the line typed ([turn_answer], before
    [.strip()]) and what the outside world would reply during that
    iteration. A command line sets the round to its cap, analyses once more
    and leaves the loop; a blank line is skipped; any other line is handed
    to [process_user_response]. *)
Fixpoint clarification_loop (inputs : list Turn) (r : StepResult)
    : StepResult :=
  match r, inputs with
  | NeedsClarification _ _ ctx, t :: rest =>
      let user_response := PyStr.strip t.(turn_answer) in
      if existsb (String.eqb (PyStr.lower user_response)) proceed_commands then
        _analyze_and_clarify t.(turn_reply)
          (set_round ctx ctx.(max_clarification_rounds))
      else if PyStr.is_empty user_response then clarification_loop rest r
      else
        clarification_loop rest
          (process_user_response t.(turn_now) user_response
             t.(turn_extracted) t.(turn_reply) ctx)
  | _, _ => r
  end.

(** *** [ConversationContext.get_context_summary] *)

(** [l[-n:]] for [n > 0] *)
Definition last_n {A : Type} (n : nat) (l : list A) : list A :=
  skipn (List.length l - n) l.

(** The lines written for [enumerate(exchanges, i)]. *)
Fixpoint exchange_lines (i : nat) (exchanges : list Exchange) : string :=
  match exchanges with
  | [] => ""
  | ex :: rest =>
      string_of_Z (Z.of_nat i) ++ ". Q: " ++ PyStr.take 100 ex.(question)
      ++ "..." ++ PyStr.nl
      ++ "   A: " ++ PyStr.take 100 ex.(answer) ++ "..." ++ PyStr.nl
      ++ exchange_lines (S i) rest
  end.

Definition get_context_summary (ctx : ConversationContext) : string :=
  let summary0 :=
    "Original Request: " ++ ctx.(user_request) ++ PyStr.nl ++ PyStr.nl in
  let summary1 :=
    match ctx.(gathered_info) with
    | [] => summary0
    | d =>
        summary0 ++ "Gathered Information:" ++ PyStr.nl
        ++ String.concat ""
             (map (fun kv => "- " ++ fst kv ++ ": " ++ (snd kv).(py_str)
                             ++ PyStr.nl) d)
        ++ PyStr.nl
    end in
  match ctx.(conversation_history) with
  | [] => summary1
  | h =>
      summary1 ++ "Previous Exchanges:" ++ PyStr.nl
      ++ exchange_lines 1 (last_n 3 h)
  end.

(** A question as [_get_last_questions] can recover it from the history:
    not empty, without a semicolon and without blanks at either end. *)
Definition recoverable_question (q : string) : Prop :=
  q <> "" /\ PyStr.strip q = q /\ PyStr.contains ";" q = false.

(** The three gap questions that [_ask_basic_questions] always considers. *)
Definition application_type_question : string :=
  "What type of application is this? (e.g., web app, mobile app, API, microservices)".

Definition document_types_question : string :=
  "What documentation do you need? (e.g., BRD, FRD, API docs, deployment guide)".

Definition key_features_question : string :=
  "What are the main features or capabilities of this application?".

(** A state without facts after its first round, and a state in which one
    answer has been given. *)
Definition stalled_context : ConversationContext :=
  set_round fresh_context 1.

Definition answered_context : ConversationContext :=
  add_exchange one_detailed_fact "2026-01-01T09:59:00" "System"
    "What is it for?" "It is the checkout of our web shop".

(** A line of blanks, the command that ends the questions, and an answer. *)
Definition blank_line : Turn :=
  mkTurn "2026-01-01T10:00:00" "   " ExtractionRaises AnalysisRaises.

Definition proceed_line : Turn :=
  mkTurn "2026-01-01T10:01:00" " Proceed " ExtractionRaises AnalysisRaises.

Definition answer_line : Turn :=
  mkTurn "2026-01-01T10:02:00" "It is a web shop with a checkout"
    (ExtractedInfo [("application_type", of_str "web shop")])
    (PriorityQuestions ["Who uses it?"]).

(** The state in which a fresh dialogue waits after its first analysis. *)
Definition first_question_round : StepResult :=
  _analyze_and_clarify AnalysisRaises fresh_context.

Definition three_exchanges : list Exchange :=
  [mkExchange "2026-01-01T10:00:00" "System" "What is it for?" "A web shop";
   mkExchange "2026-01-01T10:01:00" "System" "Who uses it?" "Customers";
   mkExchange "2026-01-01T10:02:00" "System" "Which documents?" "An FRD"].

(** *** Text utilities of the orchestrator *)

(** [_truncate_for_log]; [max_log_size] is the attribute [_max_log_size]
    (1000 in [__init__]). *)
Definition _truncate_for_log (max_log_size : nat) (text : string) : string :=
  if (String.length text <=? max_log_size)%nat then text
  else
    PyStr.take max_log_size text ++ "... [truncated "
    ++ string_of_Z (Z.of_nat (String.length text - max_log_size))
    ++ " chars]".

(** [_estimate_tokens], with [_chars_per_token = 4]. *)
Definition _estimate_tokens (text : string) : nat :=
  (String.length text / 4)%nat.

(** [len(range(0, n, step))] for a positive step. *)
Definition range_count (n step : nat) : nat := ((n + step - 1) / step)%nat.

(** [_chunk_content]: the chunks [content[i:i + size]] for
    [i in range(0, len(content), size)] with [size = chunk_size_tokens * 4].
    [range] raises [ValueError] for a step of zero ([None]) and is empty for
    a negative step. *)
Definition _chunk_content (content : string) (chunk_size_tokens : Z)
    : option (list string) :=
  let chunk_size_chars := chunk_size_tokens * 4 in
  if chunk_size_chars =? 0 then None
  else if chunk_size_chars <? 0 then Some []
  else
    let size := Z.to_nat chunk_size_chars in
    Some (map (fun k => String.substring (k * size) size content)
            (seq 0 (range_count (String.length content) size))).

(** *** [_normalize_doc_type] *)

Definition upper_char (c : ascii) : ascii :=
  let n := nat_of_ascii c in
  if ((97 <=? n) && (n <=? 122))%nat then ascii_of_nat (n - 32) else c.

(** [s.upper()] *)
Fixpoint py_upper (s : string) : string :=
  match s with
  | EmptyString => EmptyString
  | String c s' => String (upper_char c) (py_upper s')
  end.

(** [s.replace(a, b)] for single characters. *)
Fixpoint replace_char (a b : ascii) (s : string) : string :=
  match s with
  | EmptyString => EmptyString
  | String c s' =>
      String (if Ascii.eqb c a then b else c) (replace_char a b s')
  end.

(** The class attribute [DOC_TYPE_REGISTRY], in its order of insertion. *)
Definition DOC_TYPE_REGISTRY : list (string * list string) :=
  [("BRD", ["BRD"; "BUSINESS"; "BUSINESS_REQUIREMENTS"]);
   ("FRD", ["FRD"; "FUNCTIONAL"; "FNRD"; "FUNCTIONAL_REQUIREMENTS"]);
   ("NFRD", ["NFRD"; "NON-FUNCTIONAL"; "NON_FUNCTIONAL"; "NONFUNCTIONAL"]);
   ("CLOUD", ["CLOUD"; "DEPLOYMENT"; "IMPLEMENTATION"; "INFRASTRUCTURE"]);
   ("SECURITY", ["SECURITY"; "COMPLIANCE"; "SECURITY_COMPLIANCE"]);
   ("API", ["API"; "API_DOCUMENTATION"; "REST_API"]);
   ("GENERIC", ["GENERIC"; "GENERAL"; "OTHER"])].

(** The argument of [_normalize_doc_type]: a text or a list of texts. *)
Inductive DocTypeArg : Type :=
| DocTypeText (s : string)
| DocTypeList (l : list string).

(** [doc_type.upper().strip().replace("-", "_")] *)
Definition clean_doc_type (s : string) : string :=
  replace_char "-" "_" (PyStr.strip (py_upper s)).

(** One iteration of the loop over the registry: the direct match, then the
    aliases in both directions. *)
Definition matches_entry (doc_type_clean : string)
    (entry : string * list string) : bool :=
  String.eqb doc_type_clean (fst entry)
  || existsb
       (fun alias =>
          PyStr.contains alias doc_type_clean
          || PyStr.contains doc_type_clean alias)
       (snd entry).

Definition normalize_text (registry : list (string * list string))
    (s : string) : string :=
  match find (matches_entry (clean_doc_type s)) registry with
  | Some entry => fst entry
  | None => "GENERIC"
  end.

(** [_normalize_doc_type]; [registry] is the current value of the class
    attribute. *)
Definition _normalize_doc_type (registry : list (string * list string))
    (doc_type : DocTypeArg) : string :=
  match doc_type with
  | DocTypeList [] => "GENERIC"
  | DocTypeList (first :: _) => normalize_text registry first
  | DocTypeText s => normalize_text registry s
  end.

(** *** Phase 1 of [coordinate]: locating the dispatcher's JSON *)

(** The text up to and including the first closing brace, if there is one. *)
Fixpoint upto_close (s : string) : option string :=
  match s with
  | EmptyString => None
  | String c s' =>
      if Ascii.eqb c "}" then Some "}"
      else option_map (String c) (upto_close s')
  end.

(** [re.search(r'\{[^}]+\}', s, re.DOTALL)]: the leftmost opening brace that
    is followed by at least one character other than a closing brace and
    then by a closing brace; the match ends at the first closing brace after
    it ([[^}]+] cannot cross one). *)
Fixpoint dispatch_json_match (s : string) : option string :=
  match s with
  | EmptyString => None
  | String c s' =>
      if Ascii.eqb c "{" then
        match upto_close s' with
        | Some body =>
            if (2 <=? String.length body)%nat then Some (String "{" body)
            else dispatch_json_match s'
        | None => dispatch_json_match s'
        end
      else dispatch_json_match s'
  end.

(** The [try] block of phase 1: [json.loads] is applied to the match if
    there is one and to the whole reply otherwise; [json_loads] returns
    [None] when [json.loads] or the following [.get] raise
    ([JSONDecodeError], [AttributeError]), in which case the handler
    continues with the empty record. *)
Definition phase1_parse (json_loads : string -> option DispatchInfo)
    (dispatch_result : string) : option DispatchInfo :=
  match dispatch_json_match dispatch_result with
  | Some fragment => json_loads fragment
  | None => json_loads dispatch_result
  end.

(** *** Strategy 3 of [_extract_json_from_response]: the balanced object *)

(** The loop [for i in range(start, len(response))] with its counter
    [depth]: the text read up to and including the closing brace at which
    the depth returns to zero. *)
Fixpoint scan_object (depth : Z) (s : string) : option string :=
  match s with
  | EmptyString => None
  | String c s' =>
      if Ascii.eqb c "{" then
        option_map (String c) (scan_object (depth + 1) s')
      else if Ascii.eqb c "}" then
        if depth - 1 =? 0 then Some (String c "")
        else option_map (String c) (scan_object (depth - 1) s')
      else option_map (String c) (scan_object depth s')
  end.

(** [response[response.find('{'):]], if there is an opening brace. *)
Fixpoint from_first_open (s : string) : option string :=
  match s with
  | EmptyString => None
  | String c s' => if Ascii.eqb c "{" then Some s else from_first_open s'
  end.

(** The text [json_str] that strategy 3 passes to [json.loads]. *)
Definition first_object_span (response : string) : option string :=
  match from_first_open response with
  | Some rest => scan_object 0 rest
  | None => None
  end.

(** The number of opening braces minus the number of closing braces. *)
Fixpoint brace_depth (s : string) : Z :=
  match s with
  | EmptyString => 0
  | String c s' =>
      (if Ascii.eqb c "{" then 1 else if Ascii.eqb c "}" then -1 else 0)
      + brace_depth s'
  end.

(** The double quote. *)
Definition dq : string := String "034"%char "".

(** A reply of the dispatcher that asks for clarification and nests an
    object, and a parser that accepts this complete reply only. *)
Definition nested_reply : string :=
  "{" ++ dq ++ "needs_clarification" ++ dq ++ ": true, " ++ dq ++ "details"
  ++ dq ++ ": {" ++ dq ++ "why" ++ dq ++ ": " ++ dq ++ "vague" ++ dq ++ "}}".

Definition strict_loads (s : string) : option DispatchInfo :=
  if String.eqb s nested_reply then Some (mkDispatchInfo true None) else None.

Definition nesting_dispatcher (r : Role) (p : string) : string :=
  match r with
  | Dispatcher => nested_reply
  | _ => "ok"
  end.

(** A reply with prose around an object that nests another one. *)
Definition prose_reply : string :=
  "Here it is: {a: {b: 1}, c: 2} and a stray } brace".

(** *** The store shared by the agents ([BaseAgent._shared_context]) *)

Record Message : Type := mkMessage {
  msg_from : string;
  msg_to : string;
  msg_text : string;
  msg_type : string;
  msg_timestamp : string
}.

Record Handover : Type := mkHandover {
  handover_from : string;
  handover_to : string;
  handover_context : string;
  handover_reason : string;
  handover_timestamp : string
}.

(** The class attributes [_shared_context] (with its three entries) and
    [_communication_log]. The published values have any type [V]. *)
Record SharedStore (V : Type) : Type := mkStore {
  messages : list Message;
  states : list (string * V);
  handovers : list Handover;
  communication_log : list string
}.

Arguments mkStore {V} _ _ _ _.
Arguments messages {V} _.
Arguments states {V} _.
Arguments handovers {V} _.
Arguments communication_log {V} _.

(** [d[k] = v] and [d.get(k)] on a dictionary with values of any type. *)
Fixpoint store_set {V : Type} (d : list (string * V)) (k : string) (v : V)
    : list (string * V) :=
  match d with
  | [] => [(k, v)]
  | (k', v') :: d' =>
      if String.eqb k' k then (k', v) :: d' else (k', v') :: store_set d' k v
  end.

Fixpoint store_get {V : Type} (d : list (string * V)) (k : string)
    : option V :=
  match d with
  | [] => None
  | (k', v) :: d' => if String.eqb k' k then Some v else store_get d' k
  end.

(** The arrow of the log entries (U+2192, three bytes in UTF-8). *)
Definition arrow : string :=
  String "226"%char (String "134"%char (String "146"%char "")).

(** [send_message_to_agent], called on the agent [self_name]. *)
Definition send_message_to_agent {V : Type} (self_name now : string)
    (target_agent_name message message_type : string) (s : SharedStore V)
    : SharedStore V :=
  mkStore
    (s.(messages)
     ++ [mkMessage self_name target_agent_name message message_type now])%list
    s.(states) s.(handovers)
    (s.(communication_log)
     ++ [("[MSG] " ++ self_name ++ " " ++ arrow ++ " " ++ target_agent_name
          ++ ": " ++ PyStr.take 100 message ++ "...")%string])%list.

(** [publish_state] *)
Definition publish_state {V : Type} (self_name state_key : string)
    (state_value : V) (s : SharedStore V) : SharedStore V :=
  mkStore s.(messages) (store_set s.(states) state_key state_value)
    s.(handovers)
    (s.(communication_log)
     ++ [("[STATE] " ++ self_name ++ " published '" ++ state_key
          ++ "'")%string])%list.

(** [get_shared_state] *)
Definition get_shared_state {V : Type} (state_key : string)
    (s : SharedStore V) : option V :=
  store_get s.(states) state_key.

(** [request_handover] *)
Definition request_handover {V : Type} (self_name now : string)
    (target_agent_name context reason : string) (s : SharedStore V)
    : SharedStore V :=
  mkStore s.(messages) s.(states)
    (s.(handovers)
     ++ [mkHandover self_name target_agent_name context reason now])%list
    (s.(communication_log)
     ++ [("[HANDOVER] " ++ self_name ++ " " ++ arrow ++ " "
          ++ target_agent_name ++ ": " ++ reason)%string])%list.

(** [get_messages_for_agent] *)
Definition get_messages_for_agent {V : Type} (agent_name : string)
    (s : SharedStore V) : list Message :=
  filter (fun msg => String.eqb msg.(msg_to) agent_name) s.(messages).


(** One step of the agents on the store. *)
Inductive StoreOp (V : Type) : Type :=
| OpSend (self_name now target message message_type : string)
| OpPublish (self_name state_key : string) (state_value : V)
| OpHandover (self_name now target context reason : string).

Arguments OpSend {V} _ _ _ _ _.
Arguments OpPublish {V} _ _ _.
Arguments OpHandover {V} _ _ _ _ _.

Definition run_op {V : Type} (s : SharedStore V) (op : StoreOp V)
    : SharedStore V :=
  match op with
  | OpSend self_name now target message message_type =>
      send_message_to_agent self_name now target message message_type s
  | OpPublish self_name state_key state_value =>
      publish_state self_name state_key state_value s
  | OpHandover self_name now target context reason =>
      request_handover self_name now target context reason s
  end.

Definition run_ops {V : Type} (ops : list (StoreOp V)) (s : SharedStore V)
    : SharedStore V :=
  fold_left run_op ops s.

(** The operations that write the key [k], and those that send to [name]. *)
Definition writes_key {V : Type} (k : string) (op : StoreOp V) : bool :=
  match op with
  | OpPublish _ state_key _ => String.eqb state_key k
  | _ => false
  end.

Definition message_of {V : Type} (op : StoreOp V) : list Message :=
  match op with
  | OpSend self_name now target message message_type =>
      [mkMessage self_name target message message_type now]
  | _ => []
  end.

(** The analyst publishes requirements, the researcher sends a note and
    publishes its analysis. *)
Definition sample_ops : list (StoreOp string) :=
  [OpPublish "Requirement Analyst" "requirements" "checkout in three steps";
   OpSend "Code Researcher" "2026-01-01 10:00:00" "Technical Writer"
     "the code uses FastAPI" "info";
   OpPublish "Code Researcher" "code_analysis" "one service, one database"].

Definition empty_store : SharedStore string := mkStore [] [] [] [].

(** [query_agent], called on the agent [self_name].  The registry maps a
    name to the entry stored by [register_agent]; [registered] tells
    whether the entry's ['agent'] is set and [run] is its [run] method.
    [now1] and [now2] are the two readings of the clock.  An exception of
    [run] is not caught. *)
Inductive QueryResult : Type :=
| QueryNone
| QueryAnswer (response : string)
| QueryRaises (str_e : string).

Definition query_agent {V : Type} (registry : list (string * BaseAgent))
    (self_name now1 now2 target_agent_name query : string)
    (s : SharedStore V) : QueryResult * SharedStore V :=
  match store_get registry target_agent_name with
  | None => (QueryNone, s)
  | Some target_agent_data =>
      let s1 :=
        send_message_to_agent self_name now1 target_agent_name query "query" s
      in
      if target_agent_data.(registered) then
        match target_agent_data.(run) query with
        | Returns response =>
            (QueryAnswer response,
             send_message_to_agent self_name now2 self_name
               ("Response to query: " ++ PyStr.take 200 response) "result" s1)
        | Raises str_e => (QueryRaises str_e, s1)
        end
      else (QueryNone, s1)
  end.

Definition researcher_entry : BaseAgent :=
  mkAgent "Code Researcher" true (fun _ => Returns "FastAPI with SQLite").

Definition sample_registry : list (string * BaseAgent) :=
  [("Code Researcher", researcher_entry)].

(** ** Smart context detection ([ConversationManager._auto_detect_context]) *)

(** [_detect_technologies].  [listing] is the list of the names of
    [code_path.glob('*')], or [None] when listing the directory raises: the
    handler then returns the list built so far, which is still empty.
    ['vite.config' in str(file_names)] searches the printed list; the
    pattern has no quote, comma, blank or backslash, so it can only occur
    inside one of the names. *)
Definition _detect_technologies (listing : option (list string))
    : list string :=
  match listing with
  | None => []
  | Some file_names =>
      let has n := existsb (String.eqb n) file_names in
      let any_name p := existsb p file_names in
      ((if has "requirements.txt" || has "pyproject.toml" then
          "Python"
          :: (if any_name (fun f => PyStr.contains "fastapi" (PyStr.lower f)
                                    || has "main.py")
              then ["FastAPI"]
              else if has "app.py" || has "wsgi.py" then ["Flask/Django"]
              else [])
        else [])
       ++ (if has "package.json" then
             "Node.js"
             :: (if has "next.config.js" then ["Next.js"]
                 else if any_name (PyStr.contains "vite.config")
                 then ["Vite/React"]
                 else [])
           else [])
       ++ (if has "pom.xml" || has "build.gradle" then ["Java/Maven"] else [])
       ++ (if any_name (PyStr.contains ".csproj") then [".NET/C#"] else [])
       ++ (if has "Dockerfile" || has "docker-compose.yml" then ["Docker"]
           else [])
       ++ (if any_name (fun f => PyStr.contains "kubernetes" (PyStr.lower f)
                                 || PyStr.contains "k8s" (PyStr.lower f))
           then ["Kubernetes"] else [])
       ++ (if any_name (PyStr.contains ".sql") then ["SQL Database"] else [])
      )%list
  end.

(** [_suggest_doc_types_from_tech].  The suggestions are collected in a set
    of which each of the four constants is added at most once; the list
    below has them in the order of the [add]s, the order of [list(set)]
    being left open by Python. *)
Definition _suggest_doc_types_from_tech (technologies : list string)
    : list string :=
  let tech_lower := map PyStr.lower technologies in
  let listed t := existsb (String.eqb t) tech_lower in
  ((if existsb listed ["fastapi"; "flask"; "node.js"; "express"]
    then ["API Documentation"] else [])
   ++ (if existsb listed ["docker"; "kubernetes"; "aws"; "azure"]
       then ["Cloud Deployment Guide"] else [])
   ++ (if (0 <? List.length technologies)%nat
       then ["Functional Requirements Document (FRD)"] else [])
   ++ (if existsb (fun t => PyStr.contains "database" t
                            || PyStr.contains "sql" t) tech_lower
       then ["Data Architecture Document"] else []))%list.

(** [str] of a list of strings that hold no quote, backslash or control
    character, as the constants of the detector and of [type_map] do. *)
Definition py_repr_list (l : list string) : string :=
  "[" ++ PyStr.join ", " (map (fun s => "'" ++ s ++ "'") l) ++ "]".

(** A list of strings seen as an [Any]. *)
Definition of_list (l : list string) : PyValue :=
  {| py_bool := match l with [] => false | _ :: _ => true end;
     py_str := py_repr_list l |}.

Definition domain_keywords : list (string * list string) :=
  [("e-commerce", ["ecommerce"; "e-commerce"; "shop"; "cart"; "checkout";
                   "payment"; "store"]);
   ("trading", ["trading"; "stock"; "forex"; "crypto"; "exchange"; "market"]);
   ("banking", ["banking"; "bank"; "finance"; "account"; "transaction";
                "loan"]);
   ("healthcare", ["health"; "medical"; "patient"; "doctor"; "hospital";
                   "clinic"]);
   ("crm", ["crm"; "customer"; "lead"; "sales"; "contact management"]);
   ("api", ["api"; "rest"; "graphql"; "endpoint"; "microservice"]);
   ("mobile", ["mobile"; "ios"; "android"; "app"]);
   ("web", ["web"; "website"; "portal"; "dashboard"])].

Definition doc_type_keywords : list (string * list string) :=
  [("BRD", ["brd"; "business requirement"]);
   ("FRD", ["frd"; "functional requirement"; "technical spec"]);
   ("API", ["api doc"; "swagger"; "openapi"]);
   ("SECURITY", ["security"; "compliance"; "gdpr"; "hipaa"]);
   ("CLOUD", ["cloud"; "deployment"; "azure"; "aws"; "infrastructure"])].

(** [for name, keywords in table.items(): if any(...): ...; break] *)
Fixpoint first_hint (table : list (string * list string))
    (request_lower : string) : option string :=
  match table with
  | [] => None
  | (name, keywords) :: rest =>
      if existsb (fun kw => PyStr.contains kw request_lower) keywords
      then Some name
      else first_hint rest request_lower
  end.

(** What the detection reads from the file system: whether the code
    directory exists, the names in it, and the result of
    [_analyze_file_types] on the input files (values of its [type_map]). *)
Record Workspace : Type := mkWorkspace {
  dir_exists : bool;
  dir_listing : option (list string);
  file_types : list string
}.

Definition _auto_detect_context (ws : Workspace) (ctx : ConversationContext)
    : ConversationContext :=
  let ctx1 :=
    match ctx.(code_directory) with
    | Some (String _ _) =>
        if ws.(dir_exists) then
          let c := update_info ctx "code_provided" (of_str "Yes") in
          match _detect_technologies ws.(dir_listing) with
          | [] => c
          | detected_tech =>
              let c := update_info c "detected_technologies"
                         (of_list detected_tech) in
              match _suggest_doc_types_from_tech detected_tech with
              | [] => c
              | suggested_docs =>
                  update_info c "suggested_document_types"
                    (of_list suggested_docs)
              end
          end
        else ctx
    | _ => ctx
    end in
  let ctx2 :=
    match ctx1.(input_files) with
    | Some (_ :: _) =>
        let c := update_info ctx1 "files_provided" (of_str "Yes") in
        match ws.(file_types) with
        | [] => c
        | types => update_info c "file_types" (of_list types)
        end
    | _ => ctx1
    end in
  let request_lower := PyStr.lower ctx2.(user_request) in
  let ctx3 :=
    match first_hint domain_keywords request_lower with
    | Some domain => update_info ctx2 "detected_domain" (of_str domain)
    | None => ctx2
    end in
  match first_hint doc_type_keywords request_lower with
  | Some doc_type => update_info ctx3 "mentioned_doc_type" (of_str doc_type)
  | None => ctx3
  end.

(** [start_conversation] *)
Definition start_conversation (ws : Workspace) (reply : AnalysisReply)
    (user_request : string) (code_directory : option string)
    (input_files : option (list string)) : StepResult :=
  _analyze_and_clarify reply
    (_auto_detect_context ws
       (new_context user_request code_directory input_files)).

(** The technologies the detector can report. *)
Definition known_technologies : list string :=
  ["Python"; "FastAPI"; "Flask/Django"; "Node.js"; "Next.js"; "Vite/React";
   "Java/Maven"; ".NET/C#"; "Docker"; "Kubernetes"; "SQL Database"].

(** Code or files were supplied and found. *)
Definition material_supplied (ws : Workspace)
    (code_directory : option string) (input_files : option (list string))
    : bool :=
  (match code_directory with
   | Some (String _ _) => ws.(dir_exists)
   | _ => false
   end)
  || match input_files with Some (_ :: _) => true | _ => false end.

(** By how much a stored value moves the score relative to the number of
    counted facts. *)
Definition slack (v : PyValue) : Q :=
  if counts_as_fact v then
    let content_length := String.length (PyStr.strip v.(py_str)) in
    if (5 <=? content_length)%nat then
      if (50 <? content_length)%nat then 0.3%Q else 0%Q
    else (-1)%Q
  else 0%Q.

Definition total_slack (d : PyDict) : Q :=
  fold_right (fun kv acc => (slack (snd kv) + acc)%Q) 0%Q d.

Definition fastapi_workspace : Workspace :=
  mkWorkspace true (Some ["requirements.txt"; "main.py"; "Dockerfile"])
    ["Python"].

(** The facts that the request alone yields. *)
Definition hint_facts (request_lower : string) : PyDict :=
  ((match first_hint domain_keywords request_lower with
    | Some domain => [("detected_domain", of_str domain)]
    | None => []
    end)
   ++ match first_hint doc_type_keywords request_lower with
      | Some doc_type => [("mentioned_doc_type", of_str doc_type)]
      | None => []
      end)%list.

(** ** Key lines of a source file ([FileTools._extract_key_patterns]) *)

Definition pattern_keywords : list string :=
  ["import "; "from "; "class "; "def "; "async def "; "@"; "if __name__"].

(** The test of the loop body: the [if], the [elif] for significant
    comments and the [elif] for docstring quotes all append the line. *)
Definition is_key_line (line : string) : bool :=
  let stripped := PyStr.strip line in
  if existsb (fun kw => String.prefix kw stripped) pattern_keywords then true
  else if String.prefix "#" stripped && (10 <? String.length stripped)%nat
  then true
  else if PyStr.contains (dq ++ dq ++ dq) stripped
          || PyStr.contains "'''" stripped
  then true
  else false.

(** The [for] loop with its [break], on the list [key_lines] built so far. *)
Fixpoint collect_key_lines (lines : list string) (max_lines : Z)
    (key_lines : list string) : list string :=
  match lines with
  | [] => key_lines
  | line :: rest =>
      let key_lines :=
        if is_key_line line then (key_lines ++ [line])%list else key_lines in
      if max_lines <=? Z.of_nat (List.length key_lines) then key_lines
      else collect_key_lines rest max_lines key_lines
  end.

(** [l[:n]] for an integer [n] of either sign. *)
Definition slice_to {A : Type} (l : list A) (n : Z) : list A :=
  if 0 <=? n then firstn (Z.to_nat n) l
  else firstn (List.length l - Z.to_nat (- n)) l.

Definition _extract_key_patterns (lines : list string) (max_lines : Z)
    : list string :=
  let key_lines := collect_key_lines lines max_lines [] in
  if Z.of_nat (List.length key_lines) <? max_lines / 2 then
    slice_to lines max_lines
  else key_lines.

Definition sample_lines : list string :=
  ["import os"; ""; "x = 1"; "def main():"; "    return x"].

(** ** What the self-critique loop leaves in the state *)

(** The key under which the critique of round [j] is stored. *)
Definition critique_key (j : Z) : string :=
  "critique_iteration_" ++ string_of_Z j.

(** [ctx'] is [ctx] after the critique rounds whose prompts are [added]:
    the counter grew by their number, every earlier fact is still there,
    each round left its critique under its key, nothing else was added, and
    the rest of the state is as before. *)
Definition critiques_recorded (ctx ctx' : ConversationContext)
    (added : list string) : Prop :=
  ctx'.(critique_iterations)
  = ctx.(critique_iterations) + Z.of_nat (List.length added)
  /\ (forall k, dict_mem k ctx.(gathered_info) = true ->
                dict_mem k ctx'.(gathered_info) = true)
  /\ (forall j, ctx.(critique_iterations) < j <= ctx'.(critique_iterations) ->
                dict_mem (critique_key j) ctx'.(gathered_info) = true)
  /\ (forall k, dict_mem k ctx'.(gathered_info) = true ->
                dict_mem k ctx.(gathered_info) = true
                \/ exists j, ctx.(critique_iterations) < j
                                <= ctx'.(critique_iterations)
                             /\ k = critique_key j)
  /\ (added = [] -> ctx' = ctx)
  /\ ctx'.(user_request) = ctx.(user_request)
  /\ ctx'.(conversation_history) = ctx.(conversation_history)
  /\ ctx'.(clarification_round) = ctx.(clarification_round)
  /\ ctx'.(confidence_score) = ctx.(confidence_score)
  /\ ctx'.(max_critique_iterations) = ctx.(max_critique_iterations)
  /\ ctx'.(enable_self_critique) = ctx.(enable_self_critique).

(** * Properties *)

Unset Implicit Arguments.

(** ** The model on the scenarios of the specification *)

Example strip_lower_contains :
  PyStr.strip "  I Don't Know  " = "I Don't Know"
  /\ PyStr.lower "N/A" = "n/a"
  /\ PyStr.contains "pass" "compass" = true
  /\ PyStr.word_count (" two" ++ PyStr.nl ++ "words ") = 2%nat
  /\ PyStr.split_on ";" "a; b;;c" = ["a"; " b"; ""; "c"].
Proof. repeat split; reflexivity. Qed.

(** Scenario A: the engine asks at most three questions about a bare
    request, and two answers "idk" bring [empty_response_count] to its cap,
    after which it hands over. *)
Example two_idk_answers_force_proceed :
  match dialogue AnalysisRaises
          [mkTurn "2026-01-01T10:00:00" "idk" (ExtractedInfo []) AnalysisRaises;
           mkTurn "2026-01-01T10:01:00" "idk" (ExtractedInfo []) AnalysisRaises]
          fresh_context with
  | (calls, Proceed ctx) => calls = 3%nat /\ ctx.(empty_response_count) = 2
  | (_, NeedsClarification _ _ _) => False
  end.
Proof. vm_compute. split; reflexivity. Qed.

(** Scenario D: a draft without headings is assessed low and flagged. *)
Example draft_without_headings_is_low :
  (_assess_document_quality "The system stores orders.").(confidence) = Low
  /\ flagged_low (_assess_document_quality "The system stores orders.").(flags)
     = true
  /\ Qlt_bool
       (_assess_document_quality "The system stores orders.").(completeness_score)
       0.5 = true.
Proof. repeat split; vm_compute; reflexivity. Qed.

(** ** The confidence scorer *)

Section ConfidenceFacts.

Local Open Scope list_scope.
Local Open Scope Q_scope.



Lemma score_step_ok st kv : totals_ok st -> totals_ok (score_step st kv).
Proof.
  destruct st as [s t]. unfold totals_ok, score_step. simpl.
  intros [Hs Ht].
  destruct (counts_as_fact (snd kv)); simpl; [|tauto].
  split.
  - repeat match goal with
           | |- context [if ?b then _ else _] => destruct b
           end; simpl; lra.
  - right. destruct Ht; lra.
Qed.

Lemma fold_score_ok d st :
  totals_ok st -> totals_ok (fold_left score_step d st).
Proof.
  revert st. induction d as [|kv d IH]; simpl; intros st H; [exact H|].
  apply IH, score_step_ok, H.
Qed.

Lemma score_totals_ok d : totals_ok (score_totals d).
Proof. apply fold_score_ok. unfold totals_ok. simpl. split; [lra|left; reflexivity]. Qed.


Lemma Qlt_bool_true x y : Qlt_bool x y = true <-> x < y.
Proof.
  unfold Qlt_bool. rewrite negb_true_iff.
  split; intros H.
  - apply Qnot_le_lt. intros L. apply Qle_bool_iff in L. congruence.
  - destruct (Qle_bool y x) eqn:E; [|reflexivity].
    apply Qle_bool_iff in E. exfalso. apply (Qlt_not_le _ _ H E).
Qed.

Lemma Qlt_bool_false x y : Qlt_bool x y = false <-> y <= x.
Proof.
  unfold Qlt_bool. rewrite negb_false_iff. apply Qle_bool_iff.
Qed.


End ConfidenceFacts.

Section ConfidenceMonotonicity.

Local Open Scope list_scope.
Local Open Scope Q_scope.

Lemma round_penalty_nonneg ctx : 0 <= round_penalty ctx.
Proof.
  unfold round_penalty. destruct (gathered_info ctx); [|lra].
  destruct (2 <? clarification_round ctx)%Z eqn:E; [|lra].
  apply Z.ltb_lt in E.
  assert (0 <= inject_Z (clarification_round ctx - 2)).
  { change 0 with (inject_Z 0). rewrite <- Zle_Qle. lia. }
  lra.
Qed.





(** When no gathered fact earns the detail bonus the information score is
    at most 1, so the theorem applies. *)
Lemma no_bonus_totals d :
  forallb (fun kv => negb (earns_bonus (snd kv))) d = true ->
  forall st, fst st <= snd st ->
  fst (fold_left score_step d st) <= snd (fold_left score_step d st).
Proof.
  induction d as [|kv d IH]; simpl; intros H st Hst; [exact Hst|].
  apply andb_prop in H. destruct H as [Hkv Hd].
  apply IH; [exact Hd|].
  destruct st as [s t]. unfold score_step. simpl in *.
  unfold earns_bonus in Hkv.
  destruct (counts_as_fact (snd kv)); simpl in *; [|exact Hst].
  apply negb_true_iff in Hkv. rewrite Hkv.
  match goal with |- context [if ?b then _ else _] => destruct b end;
    simpl; lra.
Qed.

Lemma no_bonus_info_score_le_1 ctx :
  forallb (fun kv => negb (earns_bonus (snd kv))) ctx.(gathered_info) = true ->
  info_score ctx <= 1.
Proof.
  intros H. unfold info_score.
  pose proof (no_bonus_totals _ H (0, 0)) as Hst.
  pose proof (score_totals_ok (gathered_info ctx)) as [Hs Ht].
  unfold score_totals in *.
  destruct (fold_left score_step (gathered_info ctx) (0, 0)) as [s t].
  simpl in *. specialize (Hst ltac:(lra)).
  unfold info_score_of.
  destruct (Qlt_bool 0 t) eqn:E; [|lra].
  apply Qlt_bool_true in E.
  assert (H1 : 1 <= t) by (destruct Ht; lra).
  rewrite (Q.max_l _ _ H1).
  apply Qle_shift_div_r; lra.
Qed.

End ConfidenceMonotonicity.

(** ** The clarification engine *)

Section EngineFrames.

Local Open Scope list_scope.

(** [merge_extracted] only writes [gathered_info]. *)
Lemma merge_extracted_frame info : forall ctx,
  let ctx' := merge_extracted ctx info in
  ctx'.(conversation_history) = ctx.(conversation_history)
  /\ ctx'.(clarification_round) = ctx.(clarification_round)
  /\ ctx'.(max_clarification_rounds) = ctx.(max_clarification_rounds)
  /\ ctx'.(last_questions) = ctx.(last_questions)
  /\ ctx'.(empty_response_count) = ctx.(empty_response_count)
  /\ ctx'.(max_empty_responses) = ctx.(max_empty_responses)
  /\ ctx'.(gathered_info)
     = fold_left
         (fun acc (kv : string * PyValue) =>
            if (snd kv).(py_bool) then dict_set acc (fst kv) (snd kv) else acc)
         info ctx.(gathered_info).
Proof.
  unfold merge_extracted.
  induction info as [|kv info IH]; intros ctx; simpl.
  - repeat split.
  - destruct (py_bool (snd kv)).
    + specialize (IH (update_info ctx (fst kv) (snd kv))). simpl in IH.
      exact IH.
    + apply IH.
Qed.

(** What [ingest_answer] leaves untouched, and what it writes. *)
Lemma ingest_answer_frame now answer extracted ctx :
  let ctx' := ingest_answer now answer extracted ctx in
  ctx'.(clarification_round) = ctx.(clarification_round)
  /\ ctx'.(max_clarification_rounds) = ctx.(max_clarification_rounds)
  /\ ctx'.(max_empty_responses) = ctx.(max_empty_responses)
  /\ ctx'.(last_questions) = ctx.(last_questions)
  /\ ctx'.(empty_response_count)
     = (if is_unhelpful (PyStr.strip answer)
        then ctx.(empty_response_count) + 1 else 0)
  /\ ctx'.(conversation_history)
     = ctx.(conversation_history) ++ [recorded_exchange now answer ctx]
  /\ ctx'.(gathered_info)
     = facts_after_extraction answer extracted ctx.(gathered_info).
Proof.
  unfold ingest_answer, recorded_exchange, facts_after_extraction.
  destruct extracted as [info|].
  - match goal with
    | |- context [merge_extracted ?c info] =>
        pose proof (merge_extracted_frame info c) as F
    end.
    simpl in F. destruct F as (Fh & Fr & Fm & Fq & Fe & Fx & Fg).
    simpl. rewrite Fh, Fr, Fm, Fq, Fe, Fx, Fg.
    destruct (is_unhelpful (PyStr.strip answer)); repeat split; reflexivity.
  - destruct (is_unhelpful (PyStr.strip answer)); repeat split; reflexivity.
Qed.

(** [_ask_basic_questions] asks, and only replaces the question batch. *)
Lemma ask_basic_questions_result ctx :
  exists qs,
    (List.length qs <= 3)%nat
    /\ _ask_basic_questions ctx
       = NeedsClarification ctx.(clarification_round) qs
           (set_last_questions ctx qs).
Proof.
  unfold _ask_basic_questions.
  match goal with
  | |- context [set_last_questions ctx (firstn 3 ?l)] =>
      exists (firstn 3 l)
  end.
  split; [apply firstn_le_length|reflexivity].
Qed.

(** [_ask_intelligent_questions] increments the round and asks at most
    three questions. *)
Lemma ask_intelligent_questions_result reply ctx :
  exists qs,
    (List.length qs <= 3)%nat
    /\ _ask_intelligent_questions reply ctx
       = NeedsClarification (ctx.(clarification_round) + 1) qs
           (set_last_questions
              (set_round ctx (ctx.(clarification_round) + 1)) qs).
Proof.
  unfold _ask_intelligent_questions. destruct reply as [questions|].
  - exists (firstn 3 questions). split; [apply firstn_le_length|reflexivity].
  - destruct (ask_basic_questions_result
                (set_round ctx (ctx.(clarification_round) + 1)))
      as (qs & Hlen & Heq).
    exists qs. split; [exact Hlen|exact Heq].
Qed.

(** The two outcomes of [_analyze_and_clarify]: hand over to generation
    with the state unchanged but for the confidence, or ask once more,
    which is only possible below the round cap. *)
Lemma analyze_and_clarify_cases reply ctx :
  _analyze_and_clarify reply ctx
  = Proceed (set_confidence ctx (_calculate_confidence ctx))
  \/ (ctx.(clarification_round) < ctx.(max_clarification_rounds)
      /\ ctx.(empty_response_count) < ctx.(max_empty_responses)
      /\ exists qs,
           (List.length qs <= 3)%nat
           /\ _analyze_and_clarify reply ctx
              = NeedsClarification (ctx.(clarification_round) + 1) qs
                  (set_last_questions
                     (set_round
                        (set_confidence ctx (_calculate_confidence ctx))
                        (ctx.(clarification_round) + 1)) qs)).
Proof.
  unfold _analyze_and_clarify.
  destruct (Qle_bool 0.7 (_calculate_confidence ctx)); [now left|].
  simpl.
  destruct (max_clarification_rounds ctx <=? clarification_round ctx) eqn:R;
    [now left|].
  destruct (max_empty_responses ctx <=? empty_response_count ctx) eqn:S;
    [now left|].
  match goal with |- context [if ?b then _ else _] => destruct b end;
    [now left|].
  right. apply Z.leb_gt in R. apply Z.leb_gt in S.
  split; [exact R|]. split; [exact S|].
  destruct (ask_intelligent_questions_result reply
              (set_confidence ctx (_calculate_confidence ctx)))
    as (qs & Hlen & Heq).
  exists qs. split; [exact Hlen|exact Heq].
Qed.

End EngineFrames.

Section AnswerIngestion.

Local Open Scope list_scope.

Lemma strip_short_not_analysed answer :
  (String.length (PyStr.strip answer) < 3)%nat ->
  (PyStr.is_empty (PyStr.strip answer)
   || (String.length (PyStr.strip answer) <? 3)%nat) = true.
Proof.
  intros H. apply orb_true_iff. right. now apply Nat.ltb_lt.
Qed.

Lemma strip_long_analysed answer :
  (3 <= String.length (PyStr.strip answer))%nat ->
  (PyStr.is_empty (PyStr.strip answer)
   || (String.length (PyStr.strip answer) <? 3)%nat) = false.
Proof.
  intros H. apply orb_false_iff. split.
  - destruct (PyStr.strip answer); [simpl in H; lia|reflexivity].
  - apply Nat.ltb_ge. exact H.
Qed.

(** C7. An answer that strips to fewer than three characters, while the
    incremented counter stays below the cap, only increments
    [empty_response_count]; the same questions are asked again and history,
    facts, round, confidence and question batch are unchanged. *)
Theorem short_answer_reasks_same_questions now answer extracted reply ctx :
  (String.length (PyStr.strip answer) < 3)%nat ->
  ctx.(empty_response_count) + 1 < ctx.(max_empty_responses) ->
  exists ctx',
    process_user_response now answer extracted reply ctx
    = NeedsClarification ctx.(clarification_round) ctx.(last_questions) ctx'
    /\ ctx' = set_empty_count ctx (ctx.(empty_response_count) + 1)
    /\ ctx'.(empty_response_count) = ctx.(empty_response_count) + 1
    /\ ctx'.(conversation_history) = ctx.(conversation_history)
    /\ ctx'.(gathered_info) = ctx.(gathered_info)
    /\ ctx'.(clarification_round) = ctx.(clarification_round)
    /\ ctx'.(confidence_score) = ctx.(confidence_score)
    /\ ctx'.(last_questions) = ctx.(last_questions).
Proof.
  intros Hshort Hcap.
  exists (set_empty_count ctx (ctx.(empty_response_count) + 1)).
  unfold process_user_response.
  rewrite (strip_short_not_analysed _ Hshort). simpl.
  assert (E : (max_empty_responses ctx <=? empty_response_count ctx + 1) = false)
    by (apply Z.leb_gt; exact Hcap).
  rewrite E. repeat split.
Qed.

Lemma short_answer_reasks_same_questions_witness :
  exists ctx',
    process_user_response "2026-01-01T10:00:00" " ? " ExtractionRaises
      AnalysisRaises fresh_context
    = NeedsClarification fresh_context.(clarification_round)
        fresh_context.(last_questions) ctx'
    /\ ctx' = set_empty_count fresh_context
                (fresh_context.(empty_response_count) + 1)
    /\ ctx'.(empty_response_count) = fresh_context.(empty_response_count) + 1
    /\ ctx'.(conversation_history) = fresh_context.(conversation_history)
    /\ ctx'.(gathered_info) = fresh_context.(gathered_info)
    /\ ctx'.(clarification_round) = fresh_context.(clarification_round)
    /\ ctx'.(confidence_score) = fresh_context.(confidence_score)
    /\ ctx'.(last_questions) = fresh_context.(last_questions).
Proof.
  apply short_answer_reasks_same_questions.
  - vm_compute. lia.
  - vm_compute. reflexivity.
Defined.

(** [_analyze_and_clarify] leaves counters, history and facts alone. *)
Lemma analyze_and_clarify_frame reply ctx :
  let ctx' := result_context (_analyze_and_clarify reply ctx) in
  ctx'.(empty_response_count) = ctx.(empty_response_count)
  /\ ctx'.(conversation_history) = ctx.(conversation_history)
  /\ ctx'.(gathered_info) = ctx.(gathered_info)
  /\ ctx'.(max_clarification_rounds) = ctx.(max_clarification_rounds)
  /\ ctx'.(max_empty_responses) = ctx.(max_empty_responses).
Proof.
  destruct (analyze_and_clarify_cases reply ctx) as [E|(_ & _ & qs & _ & E)];
    rewrite E; simpl; repeat split.
Qed.

(** C10 (as amended). For an answer whose stripped length is at least 3
    and below 20, [empty_response_count] is incremented exactly when the
    lower-cased stripped answer contains one of the fixed phrases as a
    substring (so also inside a longer word such as "compass") and is
    reset to 0 otherwise; in both cases the exchange is appended to the
    history and the extraction result is applied to the facts. *)
Theorem short_reply_spam_accounting now answer extracted reply ctx :
  (3 <= String.length (PyStr.strip answer) < 20)%nat ->
  let ctx' :=
    result_context (process_user_response now answer extracted reply ctx) in
  ctx'.(empty_response_count)
  = (if PyStr.contains_any unhelpful_patterns
          (PyStr.lower (PyStr.strip answer))
     then ctx.(empty_response_count) + 1 else 0)
  /\ ctx'.(conversation_history)
     = ctx.(conversation_history) ++ [recorded_exchange now answer ctx]
  /\ ctx'.(gathered_info)
     = facts_after_extraction answer extracted ctx.(gathered_info)
  /\ PyStr.contains_any unhelpful_patterns (PyStr.lower "compass") = true.
Proof.
  intros [H3 H20]. unfold process_user_response.
  rewrite (strip_long_analysed _ H3).
  pose proof (analyze_and_clarify_frame reply
                (ingest_answer now answer extracted ctx)) as F.
  pose proof (ingest_answer_frame now answer extracted ctx) as G.
  simpl in F, G.
  destruct F as (Fe & Fh & Fg & _).
  destruct G as (_ & _ & _ & _ & Ge & Gh & Gg).
  simpl. rewrite Fe, Fh, Fg, Ge, Gh, Gg.
  unfold is_unhelpful.
  apply Nat.ltb_lt in H20. rewrite H20, andb_true_r.
  repeat split.
Qed.

Lemma short_reply_spam_accounting_witness :
  let ctx' :=
    result_context
      (process_user_response "2026-01-01T10:00:00" "a compass app"
         ExtractionRaises AnalysisRaises fresh_context) in
  ctx'.(empty_response_count)
  = (if PyStr.contains_any unhelpful_patterns
          (PyStr.lower (PyStr.strip "a compass app"))
     then fresh_context.(empty_response_count) + 1 else 0)
  /\ ctx'.(conversation_history)
     = fresh_context.(conversation_history)
       ++ [recorded_exchange "2026-01-01T10:00:00" "a compass app"
             fresh_context]
  /\ ctx'.(gathered_info)
     = facts_after_extraction "a compass app" ExtractionRaises
         fresh_context.(gathered_info)
  /\ PyStr.contains_any unhelpful_patterns (PyStr.lower "compass") = true.
Proof.
  apply short_reply_spam_accounting. vm_compute. lia.
Defined.

(** C10 (counterexample). "nonstop" contains none of the fixed phrases
    ("none" is not a substring of it), so the answer resets
    [empty_response_count] to 0 instead of incrementing it. *)
Lemma nonstop_resets_the_counter :
  (3 <= String.length (PyStr.strip "nonstop") < 20)%nat
  /\ PyStr.contains_any unhelpful_patterns (PyStr.lower "nonstop") = false
  /\ (result_context
        (process_user_response "2026-01-01T10:00:00" "nonstop"
           ExtractionRaises AnalysisRaises
           (set_empty_count fresh_context 1))).(empty_response_count) = 0.
Proof.
  split; [vm_compute; lia|]. split; vm_compute; reflexivity.
Qed.

End AnswerIngestion.

Section FactValues.

Local Open Scope list_scope.





(** A blank value is skipped by the scoring loop: it changes neither the
    numerator nor the denominator. *)
Lemma blank_fact_is_not_scored acc k v :
  blank_value v = true -> score_step acc (k, v) = acc.
Proof.
  unfold blank_value, score_step, counts_as_fact. simpl. intros ->.
  rewrite andb_false_r. destruct acc. reflexivity.
Qed.




End FactValues.

Section Termination.

Local Open Scope list_scope.








End Termination.

(** ** The question batch *)

Section QuestionBatch.

Local Open Scope list_scope.

(** Both question generators of the engine cap the batch at three. *)
Lemma engine_caps_question_batch reply ctx rd qs ctx' :
  _analyze_and_clarify reply ctx = NeedsClarification rd qs ctx' ->
  (List.length qs <= 3)%nat /\ ctx'.(last_questions) = qs.
Proof.
  destruct (analyze_and_clarify_cases reply ctx)
    as [E|(_ & _ & qs0 & Hlen & E)]; rewrite E; [discriminate|].
  intros H. injection H as _ <- <-. split; [exact Hlen|reflexivity].
Qed.

(** C9 (code bug). [generate_documentation_async] copies the dispatcher's
    [clarification_questions] into [last_questions] without the slice
    [[:3]] that the engine's own generators apply: with four proposed
    questions the state holds a batch of four. *)
Theorem prepopulated_batch_is_not_capped :
  List.length
    (prepopulate_context "Generate documentation" None None
       (Some four_questions)).(last_questions) = 4%nat.
Proof. reflexivity. Qed.

End QuestionBatch.

(** ** The quality assessor *)

Section QualityRules.

Local Open Scope list_scope.

(** A document of fewer than 500 words always carries the flag. *)
Lemma short_document_is_flagged document :
  (PyStr.word_count document < 500)%nat ->
  flagged_low (_assess_document_quality document).(flags) = true.
Proof.
  intros H. apply Nat.ltb_lt in H. unfold _assess_document_quality.
  rewrite H.
  destruct (PyStr.contains_any section_indicators document),
    (has_error_indicator document), (has_placeholder document),
    (Qlt_bool _ _); simpl; reflexivity.
Qed.

(** Without a placeholder marker its confidence is low. *)
Lemma short_document_is_low_without_placeholder document :
  (PyStr.word_count document < 500)%nat ->
  has_placeholder document = false ->
  (_assess_document_quality document).(confidence) = Low.
Proof.
  intros H P. apply Nat.ltb_lt in H. unfold _assess_document_quality.
  rewrite H, P.
  destruct (PyStr.contains_any section_indicators document),
    (has_error_indicator document), (Qlt_bool _ _); simpl; reflexivity.
Qed.

(** C4 (code bug). The placeholder rule assigns ['medium'] without looking
    at the level reached so far: a draft of three words with headings, the
    word "requirements" and the marker "TODO" is assessed [Medium], although
    it has fewer than 500 words and carries the flag [low_confidence]. *)
Theorem placeholder_rule_raises_short_document :
  (PyStr.word_count short_draft_with_marker < 500)%nat
  /\ (_assess_document_quality short_draft_with_marker).(confidence) = Medium
  /\ (_assess_document_quality short_draft_with_marker).(flags)
     = ["low_confidence"].
Proof. split; [vm_compute; lia|]. split; vm_compute; reflexivity. Qed.

End QualityRules.

(** ** The agent boundary *)

Section AgentBoundary.

Local Open Scope list_scope.

(** Every failure branch of [execute_async] returns a text that starts
    with "Error". *)
Lemma failure_text_starts_with_Error sdk a message context :
  execution_fails sdk a message context = true ->
  String.prefix "Error" (execute_async sdk a message context) = true.
Proof.
  unfold execution_fails, execute_async.
  destruct sdk; simpl; [|reflexivity].
  destruct (registered a); simpl; [|reflexivity].
  destruct (run a _); [discriminate|reflexivity].
Qed.

(** The texts of the two checks made before the agent is run start with
    "Error:" and are caught by the error-indicator rule. *)
Lemma precheck_failure_is_caught sdk a message context :
  sdk && a.(registered) = false ->
  has_error_indicator (execute_async sdk a message context) = true.
Proof.
  unfold execute_async. intros H.
  destruct sdk; simpl in *; [rewrite H|]; reflexivity.
Qed.

(** C5 (code bug). The text built for an exception raised by the agent
    starts with "Error in <name>:" and contains none of the error
    indicators: the error rule does not fire on it. When the exception
    text is long and structured, the assessment is [High] with no flag. *)
Theorem exception_text_escapes_error_rule :
  execution_fails true timing_out_dispatcher "Analyze this request" [] = true
  /\ execute_async true timing_out_dispatcher "Analyze this request" []
     = "Error in Dispatcher: timeout"
  /\ has_error_indicator
       (execute_async true timing_out_dispatcher "Analyze this request" [])
     = false
  /\ execution_fails true echoing_writer "Write the document" [] = true
  /\ (_assess_document_quality
        (execute_async true echoing_writer "Write the document" [])).(confidence)
     = High
  /\ (_assess_document_quality
        (execute_async true echoing_writer "Write the document" [])).(flags)
     = [].
Proof. repeat split; vm_compute; reflexivity. Qed.

End AgentBoundary.

(** ** The pipeline coordinator *)

Section CoordinatorPhases.

Local Open Scope list_scope.

Variable ask : Role -> string -> string.
Variable parse_dispatch : string -> option DispatchInfo.



End CoordinatorPhases.

(** ** The self-critique loop *)

Section CritiqueBound.

Local Open Scope list_scope.
Local Open Scope nat_scope.

Variable generate : nat -> string -> GenResult.
Variable editor_reply : nat -> string -> string.





End CritiqueBound.



(** * Further properties *)

(** ** The dialogue state across one answer *)

Section StateAcrossAnswers.

Local Open Scope list_scope.

Lemma Qle_bool_false x y : Qle_bool x y = false -> (y < x)%Q.
Proof.
  intros H. apply Qnot_le_lt. intros L. apply Qle_bool_iff in L. congruence.
Qed.

Lemma clamp_in_unit_interval x : in_unit_interval (Qmax 0 (Qmin 1 x)).
Proof.
  split; [apply Q.le_max_l|].
  apply Q.max_lub; [discriminate|apply Q.le_min_l].
Qed.

(** X1. [__post_init__] normalises every state: afterwards the round is
    not negative, both caps are at least 1, the counter of empty answers is
    not negative and the confidence lies in [0, 1]; applying it twice
    changes nothing more. *)
Theorem post_init_normalises ctx :
  counters_valid (post_init ctx)
  /\ in_unit_interval (post_init ctx).(confidence_score)
  /\ post_init (post_init ctx) = post_init ctx.
Proof.
  split; [|split].
  - unfold counters_valid, post_init. simpl.
    repeat split;
      match goal with |- context [if ?b then _ else _] => destruct b eqn:E end;
      try lia; first [apply Z.ltb_ge in E; lia | idtac].
  - unfold post_init. simpl.
    destruct (Qle_bool 0 _ && Qle_bool _ 1) eqn:E.
    + apply andb_prop in E. destruct E as [E0 E1].
      split; apply Qle_bool_iff; assumption.
    + apply clamp_in_unit_interval.
  - unfold post_init. simpl.
    set (c := confidence_score ctx).
    assert (Hc :
      forall r, in_unit_interval r ->
        (if Qle_bool 0 r && Qle_bool r 1 then r else Qmax 0 (Qmin 1 r)) = r).
    { intros r [H0 H1]. apply Qle_bool_iff in H0, H1. now rewrite H0, H1. }
    f_equal.
    + destruct (clarification_round ctx <? 0) eqn:E; [reflexivity|now rewrite E].
    + destruct (max_clarification_rounds ctx <? 1) eqn:E;
        [reflexivity|now rewrite E].
    + apply Hc.
      destruct (Qle_bool 0 c && Qle_bool c 1) eqn:E.
      * apply andb_prop in E. destruct E as [E0 E1].
        split; apply Qle_bool_iff; assumption.
      * apply clamp_in_unit_interval.
    + destruct (empty_response_count ctx <? 0) eqn:E; [reflexivity|now rewrite E].
    + destruct (max_empty_responses ctx <? 1) eqn:E; [reflexivity|now rewrite E].
Qed.


(** [merge_extracted] only replaces the facts. *)
Lemma merge_extracted_explicit info : forall ctx,
  merge_extracted ctx info
  = set_gathered_info ctx
      (fold_left
         (fun acc (kv : string * PyValue) =>
            if (snd kv).(py_bool) then dict_set acc (fst kv) (snd kv) else acc)
         info ctx.(gathered_info)).
Proof.
  unfold merge_extracted.
  induction info as [|kv info IH]; intros ctx; simpl.
  - destruct ctx; reflexivity.
  - destruct (py_bool (snd kv)); [|apply IH].
    rewrite IH. reflexivity.
Qed.

(** The state in which [process_user_response] calls
    [_analyze_and_clarify], field by field. *)
Lemma ingest_answer_explicit now answer extracted ctx :
  ingest_answer now answer extracted ctx
  = set_gathered_info
      (set_history
         (set_empty_count ctx
            (if is_unhelpful (PyStr.strip answer)
             then ctx.(empty_response_count) + 1 else 0))
         (ctx.(conversation_history) ++ [recorded_exchange now answer ctx]))
      (facts_after_extraction answer extracted ctx.(gathered_info)).
Proof.
  unfold ingest_answer, facts_after_extraction, recorded_exchange.
  destruct extracted as [info|].
  - rewrite merge_extracted_explicit.
    destruct (is_unhelpful (PyStr.strip answer)); reflexivity.
  - destruct (is_unhelpful (PyStr.strip answer)); reflexivity.
Qed.

(** The state returned by [_analyze_and_clarify], field by field. *)
Lemma analyze_and_clarify_explicit reply ctx :
  exists r qs,
    (r = ctx.(clarification_round) \/ r = ctx.(clarification_round) + 1)
    /\ result_context (_analyze_and_clarify reply ctx)
       = set_last_questions
           (set_round (set_confidence ctx (_calculate_confidence ctx)) r) qs.
Proof.
  destruct (analyze_and_clarify_cases reply ctx)
    as [E|(_ & _ & qs & _ & E)]; rewrite E; simpl.
  - exists ctx.(clarification_round), ctx.(last_questions).
    split; [now left|]. destruct ctx; reflexivity.
  - exists (ctx.(clarification_round) + 1), qs. split; [now right|reflexivity].
Qed.


Lemma conversation_bonus_le ctx : (conversation_bonus ctx <= 0.25)%Q.
Proof.
  unfold conversation_bonus.
  destruct (conversation_history ctx); [discriminate|apply Q.le_min_r].
Qed.

(** X3. Without a scoring fact (information score 0) and with a counter of
    empty answers that is not negative, the confidence is at most 0.25, below
    the threshold 0.7; so in its first two rounds, below the caps, the engine
    asks again whatever the history holds. *)
Theorem no_scoring_fact_keeps_engine_asking reply ctx :
  (info_score ctx == 0)%Q ->
  0 <= ctx.(empty_response_count) ->
  (_calculate_confidence ctx <= 0.25)%Q
  /\ (ctx.(clarification_round) < 2 ->
      ctx.(clarification_round) < ctx.(max_clarification_rounds) ->
      ctx.(empty_response_count) < ctx.(max_empty_responses) ->
      is_proceed (_analyze_and_clarify reply ctx) = false).
Proof.
  intros Hinfo Hcount.
  assert (Hconf : (_calculate_confidence ctx <= 0.25)%Q).
  { unfold _calculate_confidence. rewrite Hinfo.
    pose proof (conversation_bonus_le ctx) as Hb.
    pose proof (round_penalty_nonneg ctx) as Hrp.
    assert (Hsp : (0 <= spam_penalty ctx)%Q).
    { unfold spam_penalty.
      assert (0 <= inject_Z (empty_response_count ctx))%Q
        by (change 0%Q with (inject_Z 0); rewrite <- Zle_Qle; exact Hcount).
      lra. }
    apply Q.max_lub; [discriminate|].
    eapply Qle_trans; [apply Q.le_min_r|]. lra. }
  split; [exact Hconf|].
  intros H2 Hmax Hemp.
  unfold _analyze_and_clarify.
  assert (E : Qle_bool 0.7 (_calculate_confidence ctx) = false).
  { destruct (Qle_bool 0.7 (_calculate_confidence ctx)) eqn:E; [|reflexivity].
    apply Qle_bool_iff in E. lra. }
  rewrite E. simpl.
  apply Z.leb_gt in Hmax, Hemp. rewrite Hmax, Hemp.
  assert (E2 : (2 <=? clarification_round ctx) = false) by (apply Z.leb_gt; lia).
  rewrite E2. simpl.
  destruct (ask_intelligent_questions_result reply
              (set_confidence ctx (_calculate_confidence ctx)))
    as (qs & _ & Heq).
  rewrite Heq. reflexivity.
Qed.

Lemma no_scoring_fact_keeps_engine_asking_witness :
  (_calculate_confidence stalled_context <= 0.25)%Q
  /\ (stalled_context.(clarification_round) < 2 ->
      stalled_context.(clarification_round)
      < stalled_context.(max_clarification_rounds) ->
      stalled_context.(empty_response_count)
      < stalled_context.(max_empty_responses) ->
      is_proceed (_analyze_and_clarify AnalysisRaises stalled_context) = false).
Proof.
  apply no_scoring_fact_keeps_engine_asking.
  - vm_compute. reflexivity.
  - vm_compute. discriminate.
Defined.

End StateAcrossAnswers.

(** ** The gathered facts *)

Section GatheredFacts.

Local Open Scope list_scope.

Lemma dict_mem_In k d : dict_mem k d = true <-> In k (dict_keys d).
Proof.
  unfold dict_mem. rewrite existsb_exists. split.
  - intros (x & Hin & E). apply String.eqb_eq in E. now subst.
  - intros H. exists k. split; [exact H|apply String.eqb_refl].
Qed.

Lemma dict_keys_dict_set d k v :
  dict_keys (dict_set d k v)
  = if dict_mem k d then dict_keys d else dict_keys d ++ [k].
Proof.
  unfold dict_mem, dict_keys.
  induction d as [|[k' v'] d IH]; simpl; [reflexivity|].
  rewrite (String.eqb_sym k k').
  destruct (String.eqb k' k); simpl; [reflexivity|].
  rewrite IH. destruct (existsb _ _); reflexivity.
Qed.

Lemma dict_set_keeps_keys d k v k0 :
  dict_mem k0 d = true -> dict_mem k0 (dict_set d k v) = true.
Proof.
  rewrite !dict_mem_In, dict_keys_dict_set.
  destruct (dict_mem k d); [trivial|]. intros H. apply in_or_app. now left.
Qed.

Lemma dict_set_keeps_distinct d k v :
  keys_distinct d -> keys_distinct (dict_set d k v).
Proof.
  unfold keys_distinct. rewrite dict_keys_dict_set.
  destruct (dict_mem k d) eqn:E; [trivial|]. intros H.
  apply NoDup_app; [exact H|repeat constructor; intros []|].
  intros x Hx [<-|[]].
  apply dict_mem_In in Hx. congruence.
Qed.

Lemma dict_get_set_same d k v : dict_get (dict_set d k v) k = Some v.
Proof.
  induction d as [|[k' v'] d IH]; simpl.
  - now rewrite String.eqb_refl.
  - destruct (String.eqb k' k) eqn:E; simpl; rewrite E; [reflexivity|exact IH].
Qed.

Lemma dict_get_set_other d k v k0 :
  k0 <> k -> dict_get (dict_set d k v) k0 = dict_get d k0.
Proof.
  intros Hne.
  induction d as [|[k' v'] d IH]; simpl.
  - destruct (String.eqb k k0) eqn:E; [|reflexivity].
    apply String.eqb_eq in E. congruence.
  - destruct (String.eqb k' k) eqn:E; simpl.
    + apply String.eqb_eq in E. subst k'.
      destruct (String.eqb k k0) eqn:E0; [|reflexivity].
      apply String.eqb_eq in E0. congruence.
    + destruct (String.eqb k' k0); [reflexivity|exact IH].
Qed.

Lemma merge_keeps_keys info : forall d k0,
  dict_mem k0 d = true -> dict_mem k0 (fold_left merge_step info d) = true.
Proof.
  induction info as [|kv info IH]; simpl; intros d k0 H; [exact H|].
  apply IH. unfold merge_step. destruct (py_bool (snd kv)); [|exact H].
  now apply dict_set_keeps_keys.
Qed.

Lemma merge_keeps_distinct info : forall d,
  keys_distinct d -> keys_distinct (fold_left merge_step info d).
Proof.
  induction info as [|kv info IH]; simpl; intros d H; [exact H|].
  apply IH. unfold merge_step. destruct (py_bool (snd kv)); [|exact H].
  now apply dict_set_keeps_distinct.
Qed.

Lemma merge_leaves_other_keys info : forall d k0,
  (forall v, In (k0, v) info -> v.(py_bool) = false) ->
  dict_get (fold_left merge_step info d) k0 = dict_get d k0.
Proof.
  induction info as [|[k v] info IH]; simpl; intros d k0 H; [reflexivity|].
  rewrite IH by (intros v' Hv'; apply H; now right).
  unfold merge_step. simpl. destruct (py_bool v) eqn:E; [|reflexivity].
  apply dict_get_set_other. intros ->.
  specialize (H v (or_introl eq_refl)). congruence.
Qed.

Lemma merge_writes_truthy info : forall d k v,
  NoDup (map fst info) -> In (k, v) info -> v.(py_bool) = true ->
  dict_get (fold_left merge_step info d) k = Some v.
Proof.
  induction info as [|[k' v'] info IH]; simpl; intros d k v Hnd Hin Hv;
    [destruct Hin|].
  inversion Hnd as [|? ? Hnotin Hnd']; subst.
  destruct Hin as [E|Hin].
  - injection E as -> ->.
    rewrite merge_leaves_other_keys.
    + unfold merge_step. simpl. rewrite Hv. apply dict_get_set_same.
    + intros v0 Hv0. exfalso. apply Hnotin.
      change k with (fst (k, v0)). now apply in_map.
  - now apply IH.
Qed.

(** X4. An answer never removes a fact: every key gathered before the call
    of [process_user_response] is still there afterwards, and keys that were
    pairwise distinct stay so. *)
Theorem answer_never_drops_a_fact now answer extracted reply ctx :
  let ctx' :=
    result_context (process_user_response now answer extracted reply ctx) in
  (forall k, dict_mem k ctx.(gathered_info) = true ->
             dict_mem k ctx'.(gathered_info) = true)
  /\ (keys_distinct ctx.(gathered_info) -> keys_distinct ctx'.(gathered_info)).
Proof.
  unfold process_user_response.
  destruct (PyStr.is_empty (PyStr.strip answer)
            || (String.length (PyStr.strip answer) <? 3)%nat).
  - simpl. destruct (_ <=? _); simpl; split; trivial.
  - destruct (analyze_and_clarify_explicit reply
                (ingest_answer now answer extracted ctx)) as (r & qs & _ & E).
    cbv zeta. rewrite E, ingest_answer_explicit. simpl.
    unfold facts_after_extraction. destruct extracted as [info|].
    + split; [intros k; apply merge_keeps_keys|apply merge_keeps_distinct].
    + split; [intros k; apply dict_set_keeps_keys|apply dict_set_keeps_distinct].
Qed.

(** X5. When the analyst's reply is a mapping with distinct keys and the
    answer has at least three significant characters, every truthy value of
    the mapping can be read back from the facts under its key (it replaces
    an earlier value), and a key for which the mapping holds no truthy value
    keeps what it had. *)
Theorem extracted_facts_can_be_read_back now answer info reply ctx :
  (3 <= String.length (PyStr.strip answer))%nat ->
  NoDup (map fst info) ->
  let ctx' :=
    result_context
      (process_user_response now answer (ExtractedInfo info) reply ctx) in
  (forall k v, In (k, v) info -> v.(py_bool) = true ->
               dict_get ctx'.(gathered_info) k = Some v)
  /\ (forall k, (forall v, In (k, v) info -> v.(py_bool) = false) ->
                dict_get ctx'.(gathered_info) k
                = dict_get ctx.(gathered_info) k).
Proof.
  intros H3 Hnd. unfold process_user_response.
  rewrite (strip_long_analysed _ H3).
  destruct (analyze_and_clarify_explicit reply
              (ingest_answer now answer (ExtractedInfo info) ctx))
    as (r & qs & _ & E).
  cbv zeta. rewrite E, ingest_answer_explicit. simpl.
  split.
  - intros k v Hin Hv. now apply merge_writes_truthy.
  - intros k H. now apply merge_leaves_other_keys.
Qed.

Lemma extracted_facts_can_be_read_back_witness :
  let ctx' :=
    result_context
      (process_user_response "2026-01-01T10:00:00" "a web shop"
         (ExtractedInfo [("application_type", of_str "web shop");
                         ("timeline", of_str "")])
         AnalysisRaises one_detailed_fact) in
  (forall k v,
     In (k, v) [("application_type", of_str "web shop");
                ("timeline", of_str "")] ->
     v.(py_bool) = true -> dict_get ctx'.(gathered_info) k = Some v)
  /\ (forall k,
        (forall v,
           In (k, v) [("application_type", of_str "web shop");
                      ("timeline", of_str "")] ->
           v.(py_bool) = false) ->
        dict_get ctx'.(gathered_info) k
        = dict_get one_detailed_fact.(gathered_info) k).
Proof.
  apply extracted_facts_can_be_read_back.
  - vm_compute. lia.
  - repeat constructor; simpl; intuition discriminate.
Defined.

End GatheredFacts.

(** ** The question generators *)

Section QuestionGenerators.

Local Open Scope list_scope.

Lemma in_firstn_in {A : Type} n (l : list A) x : In x (firstn n l) -> In x l.
Proof.
  revert l. induction n as [|n IH]; intros [|a l]; simpl; try tauto.
  intros [H|H]; [now left|right; now apply IH].
Qed.

(** Follows a question through the appends and tests that build the batch. *)
Ltac trace_question H :=
  repeat first
    [ discriminate H
    | match type of H with
      | In _ (if ?b then _ else _) => destruct b
      | In _ (_ ++ _) => apply in_app_or in H; destruct H as [H|H]
      | In _ (_ :: _) => destruct H as [H|H]
      | In _ [] => destruct H
      end ].

(** X6. The fallback generator always asks two or three questions, and it
    asks for the application type, the document types or the key features
    only when the corresponding fact is missing. *)
Theorem basic_questions_fill_gaps ctx :
  exists qs,
    _ask_basic_questions ctx
    = NeedsClarification ctx.(clarification_round) qs
        (set_last_questions ctx qs)
    /\ (2 <= List.length qs <= 3)%nat
    /\ (In application_type_question qs ->
        dict_mem "application_type" ctx.(gathered_info) = false)
    /\ (In document_types_question qs ->
        dict_mem "document_types" ctx.(gathered_info) = false
        /\ dict_mem "document_type" ctx.(gathered_info) = false)
    /\ (In key_features_question qs ->
        dict_mem "key_features" ctx.(gathered_info) = false
        /\ dict_mem "features" ctx.(gathered_info) = false).
Proof.
  unfold _ask_basic_questions.
  match goal with
  | |- context [set_last_questions ctx (firstn 3 ?l)] => exists (firstn 3 l)
  end.
  split; [reflexivity|]. split; [|split; [|split]].
  - rewrite length_firstn.
    match goal with |- context [if ?b then _ else _] => destruct b eqn:E end.
    + cbn [List.length]. lia.
    + apply Nat.ltb_ge in E. lia.
  - intros H. apply in_firstn_in in H.
    destruct (dict_mem "application_type" (gathered_info ctx));
      [|reflexivity].
    exfalso. cbn [negb andb] in H.
    unfold application_type_question in H. trace_question H.
  - intros H. apply in_firstn_in in H.
    destruct (dict_mem "document_types" (gathered_info ctx));
    destruct (dict_mem "document_type" (gathered_info ctx));
      try (split; reflexivity);
      exfalso; cbn [negb andb] in H;
      unfold document_types_question in H; trace_question H.
  - intros H. apply in_firstn_in in H.
    destruct (dict_mem "key_features" (gathered_info ctx));
    destruct (dict_mem "features" (gathered_info ctx));
      try (split; reflexivity);
      exfalso; cbn [negb andb] in H;
      unfold key_features_question in H; trace_question H.
Qed.

(** X7. The first analysis of a dialogue opened by
    [generate_documentation_async] always asks (it never hands over), in
    round 1, with at most three questions: the batch copied from the
    dispatcher, whatever its length, is replaced before the user sees it. *)
Theorem first_analysis_replaces_dispatcher_batch
    request dir files dispatcher_questions reply :
  exists qs ctx',
    _analyze_and_clarify reply
      (prepopulate_context request dir files dispatcher_questions)
    = NeedsClarification 1 qs ctx'
    /\ (List.length qs <= 3)%nat
    /\ ctx'.(last_questions) = qs
    /\ ctx'.(clarification_round) = 1.
Proof.
  set (ctx := prepopulate_context request dir files dispatcher_questions).
  assert (Hfield :
    ctx.(gathered_info) = [] /\ ctx.(conversation_history) = []
    /\ ctx.(clarification_round) = 0 /\ ctx.(max_clarification_rounds) = 3
    /\ ctx.(empty_response_count) = 0 /\ ctx.(max_empty_responses) = 2).
  { unfold ctx, prepopulate_context.
    destruct dispatcher_questions as [[|q qs]|]; repeat split. }
  destruct Hfield as (Hg & Hh & Hr & Hm & He & Hx).
  assert (Hconf : _calculate_confidence ctx = Qmax 0 (Qmin 1 (0 * 0.7 + 0 - 0 - inject_Z 0 * 0.15))).
  { unfold _calculate_confidence, info_score, conversation_bonus,
      round_penalty, spam_penalty.
    rewrite Hg, Hh, He, Hr. reflexivity. }
  destruct (analyze_and_clarify_cases reply ctx)
    as [E|(_ & _ & qs & Hlen & E)].
  - exfalso. revert E. unfold _analyze_and_clarify.
    rewrite Hconf. simpl. rewrite Hr, Hm, He, Hx. simpl.
    destruct (ask_intelligent_questions_result reply
                (set_confidence ctx
                   (Qmax 0 (Qmin 1 (0 * 0.7 + 0 - 0 - inject_Z 0 * 0.15)))))
      as (qs & _ & Heq).
    rewrite Heq. discriminate.
  - rewrite E, Hr. do 2 eexists. repeat split. exact Hlen.
Qed.

End QuestionGenerators.

(** ** The interactive loop *)

Section InteractiveLoop.

Local Open Scope list_scope.

(** X8. In the loop of [generate_documentation_async], a line that reads
    "proceed", "continue" or "skip" (in any letter case, blanks around it
    ignored) ends the questions at once: the engine hands over to
    generation with the round set to its cap, and the lines after it are
    not read. *)
Theorem proceed_command_hands_over t rest rd qs ctx :
  existsb (String.eqb (PyStr.lower (PyStr.strip t.(turn_answer))))
    proceed_commands = true ->
  exists ctx',
    clarification_loop (t :: rest) (NeedsClarification rd qs ctx)
    = Proceed ctx'
    /\ ctx'.(clarification_round) = ctx.(max_clarification_rounds)
    /\ ctx'.(gathered_info) = ctx.(gathered_info)
    /\ ctx'.(conversation_history) = ctx.(conversation_history).
Proof.
  intros Hcmd. cbn [clarification_loop]. rewrite Hcmd.
  destruct (analyze_and_clarify_cases t.(turn_reply)
              (set_round ctx ctx.(max_clarification_rounds)))
    as [E|(Hlt & _)].
  - rewrite E. eexists. split; [reflexivity|]. repeat split.
  - simpl in Hlt. lia.
Qed.

Lemma proceed_command_hands_over_witness :
  exists ctx',
    clarification_loop (proceed_line :: [answer_line])
      (NeedsClarification 1 [] stalled_context)
    = Proceed ctx'
    /\ ctx'.(clarification_round) = stalled_context.(max_clarification_rounds)
    /\ ctx'.(gathered_info) = stalled_context.(gathered_info)
    /\ ctx'.(conversation_history) = stalled_context.(conversation_history).
Proof.
  apply proceed_command_hands_over. vm_compute. reflexivity.
Defined.

(** X9. Blank lines do not count: a line that is empty once stripped is
    skipped by the loop without touching the state (in particular without
    adding to [empty_response_count]), so inserting such a line anywhere in
    the input does not change the outcome. *)
Theorem blank_lines_are_ignored t before after r :
  PyStr.strip t.(turn_answer) = "" ->
  clarification_loop (before ++ t :: after) r
  = clarification_loop (before ++ after) r.
Proof.
  intros Hblank. revert r.
  induction before as [|a before IH]; intros r.
  - destruct r as [rd qs ctx|ctx]; [|destruct after; reflexivity].
    cbn [app clarification_loop]. rewrite Hblank. reflexivity.
  - destruct r as [rd qs ctx|ctx]; [|reflexivity].
    cbn [app clarification_loop].
    destruct (existsb _ proceed_commands); [reflexivity|].
    destruct (PyStr.is_empty _); apply IH.
Qed.

Lemma blank_lines_are_ignored_witness :
  clarification_loop ([answer_line] ++ blank_line :: [proceed_line])
    first_question_round
  = clarification_loop ([answer_line] ++ [proceed_line]) first_question_round.
Proof.
  apply blank_lines_are_ignored. reflexivity.
Defined.

End InteractiveLoop.

(** ** The context summary and the recovery of the last questions *)

Section SummaryAndRecovery.

Local Open Scope list_scope.

Lemma last_n_app {A : Type} (older recent : list A) n :
  List.length recent = n -> last_n n (older ++ recent) = recent.
Proof.
  intros <-. unfold last_n. rewrite length_app.
  replace (List.length older + List.length recent - List.length recent)%nat
    with (List.length older + 0)%nat by lia.
  rewrite skipn_app, Nat.add_0_r, skipn_all.
  replace (List.length older - List.length older)%nat with 0%nat by lia.
  reflexivity.
Qed.

(** X10. The summary that accompanies every prompt shows the last three
    exchanges only: exchanges older than these do not change it. *)
Theorem summary_shows_last_three_exchanges ctx older recent :
  List.length recent = 3%nat ->
  get_context_summary (set_history ctx (older ++ recent))
  = get_context_summary (set_history ctx recent).
Proof.
  intros Hlen. unfold get_context_summary, set_history.
  cbn [user_request gathered_info conversation_history].
  pose proof (last_n_app older recent 3 Hlen) as Hall.
  pose proof (last_n_app [] recent 3 Hlen) as Hrec. cbn [app] in Hrec.
  destruct recent as [|e recent]; [discriminate|].
  destruct (older ++ e :: recent) as [|e' l] eqn:E;
    [destruct older; discriminate|].
  rewrite Hall, Hrec. reflexivity.
Qed.

Lemma summary_shows_last_three_exchanges_witness :
  get_context_summary
    (set_history one_detailed_fact
       (answered_context.(conversation_history) ++ three_exchanges))
  = get_context_summary (set_history one_detailed_fact three_exchanges).
Proof.
  apply summary_shows_last_three_exchanges. reflexivity.
Defined.

End SummaryAndRecovery.

Section QuestionRecovery.

Local Open Scope list_scope.

Lemma no_semicolon_cons c s :
  PyStr.contains ";" (String c s) = false ->
  Ascii.eqb c ";" = false /\ PyStr.contains ";" s = false.
Proof.
  cbn [PyStr.contains String.prefix]. intros H.
  apply orb_false_elim in H. destruct H as [H1 H2]. split; [|exact H2].
  destruct (Ascii.ascii_dec ";" c) as [<-|Hne].
  - destruct s; discriminate H1.
  - rewrite Ascii.eqb_sym. now apply Ascii.eqb_neq.
Qed.

Lemma split_on_never_empty sep s : PyStr.split_on sep s <> [].
Proof.
  destruct s as [|c s]; simpl; [discriminate|].
  destruct (Ascii.eqb c sep); [discriminate|].
  destruct (PyStr.split_on sep s); discriminate.
Qed.

Lemma split_on_without_separator s :
  PyStr.contains ";" s = false -> PyStr.split_on ";" s = [s].
Proof.
  induction s as [|c s IH]; intros H; [reflexivity|].
  apply no_semicolon_cons in H. destruct H as [Hc Hs].
  simpl. rewrite Hc, (IH Hs). reflexivity.
Qed.

Lemma split_on_at_separator s t :
  PyStr.contains ";" s = false ->
  PyStr.split_on ";" (s ++ String ";" t)%string = s :: PyStr.split_on ";" t.
Proof.
  induction s as [|c s IH]; intros H; [reflexivity|].
  apply no_semicolon_cons in H. destruct H as [Hc Hs].
  cbn [String.append PyStr.split_on]. rewrite Hc, (IH Hs). reflexivity.
Qed.

Lemma strip_after_blank s :
  PyStr.strip (String " " s) = PyStr.strip s.
Proof. reflexivity. Qed.

(** Splitting the joined questions and stripping the pieces gives the
    questions back. *)
Lemma split_join_questions qs :
  qs <> [] -> Forall recoverable_question qs ->
  map PyStr.strip (PyStr.split_on ";" (PyStr.join "; " qs)) = qs.
Proof.
  induction qs as [|q qs IH]; intros Hne Hall; [congruence|].
  inversion Hall as [|? ? (Hq & Hstrip & Hsemi) Hrest]; subst.
  destruct qs as [|q' qs].
  - cbn [PyStr.join]. rewrite (split_on_without_separator _ Hsemi).
    simpl. now rewrite Hstrip.
  - change (PyStr.join "; " (q :: q' :: qs))
      with (q ++ String ";" (String " " (PyStr.join "; " (q' :: qs))))%string.
    rewrite (split_on_at_separator _ _ Hsemi).
    cbn [map]. rewrite Hstrip. f_equal.
    specialize (IH ltac:(discriminate) Hrest).
    cbn [PyStr.split_on]. change (Ascii.eqb " " ";") with false. cbv iota.
    destruct (PyStr.split_on ";" (PyStr.join "; " (q' :: qs))) as [|p ps] eqn:E;
      [now apply split_on_never_empty in E|].
    cbn [map] in IH |- *. rewrite strip_after_blank. exact IH.
Qed.

(** X11. When the current batch is empty, [_get_last_questions] recovers
    the questions of the last exchange from the history: if that exchange
    recorded the questions [qs] joined by "; " and every question is not
    empty, has no blank at either end and contains no semicolon, the result
    is [qs] again. *)
Theorem last_questions_recovered_from_history ctx older now a qs :
  ctx.(last_questions) = [] ->
  ctx.(conversation_history)
  = older ++ [mkExchange now "System" (PyStr.join "; " qs) a] ->
  Forall recoverable_question qs ->
  _get_last_questions ctx = qs.
Proof.
  intros Hlast Hhist Hall. unfold _get_last_questions.
  rewrite Hlast, Hhist, rev_unit. cbn [question].
  destruct qs as [|q qs]; [reflexivity|].
  rewrite split_join_questions by (discriminate || exact Hall).
  apply forallb_filter_id.
  apply forallb_forall. intros x Hx.
  rewrite Forall_forall in Hall. destruct (Hall x Hx) as (Hne & _).
  destruct x; [congruence|reflexivity].
Qed.

Lemma last_questions_recovered_from_history_witness :
  _get_last_questions
    (set_history fresh_context
       ([] ++ [mkExchange "2026-01-01T10:00:00" "System"
                 (PyStr.join "; " ["What is it for?"; "Who uses it?"])
                 "A web shop"]))
  = ["What is it for?"; "Who uses it?"].
Proof.
  apply (last_questions_recovered_from_history _ [] "2026-01-01T10:00:00"
           "A web shop").
  - reflexivity.
  - reflexivity.
  - repeat constructor; discriminate.
Defined.

End QuestionRecovery.

(** ** Text utilities of the orchestrator *)

Section TextUtilities.

Local Open Scope list_scope.
Local Open Scope nat_scope.

Lemma length_substring s : forall a b,
  String.length (String.substring a b s) = Nat.min b (String.length s - a).
Proof.
  induction s as [|c s IH]; intros a b.
  - destruct a, b; reflexivity.
  - destruct a as [|a].
    + destruct b as [|b]; [reflexivity|].
      simpl. rewrite IH, Nat.sub_0_r. reflexivity.
    + simpl. apply IH.
Qed.

Lemma substring_all s : forall n,
  String.length s <= n -> String.substring 0 n s = s.
Proof.
  induction s as [|c s IH]; intros n H.
  - destruct n; reflexivity.
  - destruct n as [|n]; [simpl in H; lia|].
    simpl. f_equal. apply IH. simpl in H. lia.
Qed.

Lemma substring_prefix_of_append s t : forall n,
  n <= String.length s ->
  String.substring 0 n (s ++ t)%string = String.substring 0 n s.
Proof.
  induction s as [|c s IH]; intros n H.
  - simpl in H. replace n with 0 by lia. destruct t; reflexivity.
  - destruct n as [|n]; [reflexivity|].
    simpl. f_equal. apply IH. simpl in H. lia.
Qed.

Lemma substring_twice s : forall n,
  String.substring 0 n (String.substring 0 n s) = String.substring 0 n s.
Proof.
  induction s as [|c s IH]; intros n.
  - destruct n; reflexivity.
  - destruct n as [|n]; [reflexivity|]. simpl. f_equal. apply IH.
Qed.

Lemma substring_split s : forall a b,
  (String.substring 0 a s ++ String.substring a b s)%string
  = String.substring 0 (a + b) s.
Proof.
  induction s as [|c s IH]; intros a b.
  - destruct a, b; reflexivity.
  - destruct a as [|a].
    + reflexivity.
    + simpl. f_equal. apply IH.
Qed.

Lemma string_of_Z_not_empty z : 1 <= String.length (string_of_Z z).
Proof.
  unfold string_of_Z.
  destruct (Z.to_int z) as [d|d]; destruct d; simpl; lia.
Qed.

Lemma length_append s t :
  String.length (s ++ t)%string = String.length s + String.length t.
Proof. induction s as [|c s IH]; simpl; [reflexivity|now rewrite IH]. Qed.

(** X12. [_truncate_for_log] returns a text within the limit as it is and
    always keeps the first [max_log_size] characters; a longer text gets a
    marker of at least 23 characters, so a text that exceeds the limit by
    fewer than 23 characters comes out longer than it went in. *)
Theorem truncate_for_log_keeps_prefix max_log_size text :
  PyStr.take max_log_size (_truncate_for_log max_log_size text)
  = PyStr.take max_log_size text
  /\ (String.length text <= max_log_size ->
      _truncate_for_log max_log_size text = text)
  /\ (max_log_size < String.length text ->
      max_log_size + 23
      <= String.length (_truncate_for_log max_log_size text)).
Proof.
  unfold _truncate_for_log, PyStr.take.
  destruct (String.length text <=? max_log_size) eqn:E.
  - apply Nat.leb_le in E. repeat split; intros; try reflexivity; lia.
  - apply Nat.leb_gt in E. split; [|split].
    + rewrite substring_prefix_of_append.
      * apply substring_twice.
      * rewrite length_substring. lia.
    + intros H. lia.
    + intros _. rewrite !length_append, length_substring.
      pose proof (string_of_Z_not_empty
                    (Z.of_nat (String.length text - max_log_size))).
      simpl String.length. lia.
Qed.

Lemma append_empty_r s : (s ++ "")%string = s.
Proof. induction s as [|c s IH]; simpl; [reflexivity|now rewrite IH]. Qed.

Lemma append_assoc s t u : ((s ++ t) ++ u)%string = (s ++ t ++ u)%string.
Proof. induction s as [|c s IH]; simpl; [reflexivity|now rewrite IH]. Qed.

Lemma concat_cons a (l : list string) :
  String.concat "" (a :: l) = (a ++ String.concat "" l)%string.
Proof.
  destruct l as [|b l]; simpl; [now rewrite append_empty_r|reflexivity].
Qed.

Lemma concat_snoc (l : list string) x :
  String.concat "" (l ++ [x]) = (String.concat "" l ++ x)%string.
Proof.
  induction l as [|a l IH]; [reflexivity|].
  change ((a :: l) ++ [x]) with (a :: (l ++ [x])).
  rewrite !concat_cons, IH, append_assoc. reflexivity.
Qed.

Lemma chunks_concat content size : forall m,
  String.concat ""
    (map (fun k => String.substring (k * size) size content) (seq 0 m))
  = String.substring 0 (m * size) content.
Proof.
  induction m as [|m IH].
  - destruct content; reflexivity.
  - rewrite seq_S, map_app. cbn [map Nat.add]. rewrite concat_snoc, IH.
    rewrite substring_split. f_equal. lia.
Qed.

Lemma range_count_covers n step :
  0 < step -> n <= range_count n step * step.
Proof.
  intros H. unfold range_count.
  pose proof (Nat.div_mod_eq (n + step - 1) step) as E.
  pose proof (Nat.mod_upper_bound (n + step - 1) step ltac:(lia)) as B.
  nia.
Qed.

Lemma range_count_tight n step k :
  0 < step -> k < range_count n step -> k * step < n.
Proof.
  intros H Hk. unfold range_count in Hk.
  pose proof (Nat.div_mod_eq (n + step - 1) step) as E.
  pose proof (Nat.mod_upper_bound (n + step - 1) step ltac:(lia)) as B.
  nia.
Qed.

(** X13. For a positive chunk size [_chunk_content] loses nothing and
    respects the size: the chunks, put together, are the content; every
    chunk is non-empty, has at most [4 * chunk_size_tokens] characters and an
    estimated token count of at most [chunk_size_tokens]. *)
Theorem chunk_content_round_trip content chunk_size_tokens :
  (0 < chunk_size_tokens)%Z ->
  exists chunks,
    _chunk_content content chunk_size_tokens = Some chunks
    /\ String.concat "" chunks = content
    /\ Forall
         (fun chunk =>
            1 <= String.length chunk <= 4 * Z.to_nat chunk_size_tokens
            /\ _estimate_tokens chunk <= Z.to_nat chunk_size_tokens)
         chunks.
Proof.
  intros Hpos. unfold _chunk_content.
  assert (E0 : (chunk_size_tokens * 4 =? 0)%Z = false) by (apply Z.eqb_neq; lia).
  assert (E1 : (chunk_size_tokens * 4 <? 0)%Z = false) by (apply Z.ltb_ge; lia).
  cbv zeta. rewrite E0, E1.
  set (size := Z.to_nat (chunk_size_tokens * 4)).
  assert (Hsize : size = 4 * Z.to_nat chunk_size_tokens) by (unfold size; lia).
  assert (Hs : 0 < size) by lia.
  eexists. split; [reflexivity|]. split.
  - rewrite chunks_concat. apply substring_all.
    apply range_count_covers. exact Hs.
  - apply Forall_forall. intros chunk Hin.
    apply in_map_iff in Hin. destruct Hin as (k & <- & Hk).
    apply in_seq in Hk.
    pose proof (range_count_tight (String.length content) size k Hs
                  ltac:(lia)) as Hlt.
    unfold _estimate_tokens. rewrite length_substring.
    split; [lia|].
    apply Nat.Div0.div_le_upper_bound. lia.
Qed.

Lemma chunk_content_round_trip_witness :
  exists chunks,
    _chunk_content "0123456789" 1 = Some chunks
    /\ String.concat "" chunks = "0123456789"%string
    /\ Forall
         (fun chunk =>
            1 <= String.length chunk <= 4 * Z.to_nat 1
            /\ _estimate_tokens chunk <= Z.to_nat 1)
         chunks.
Proof.
  apply chunk_content_round_trip. reflexivity.
Defined.

End TextUtilities.

(** ** The normalisation of document types *)

Section DocumentTypes.

Local Open Scope list_scope.

Lemma contains_empty s : PyStr.contains "" s = true.
Proof. destruct s; reflexivity. Qed.

(** X14. [_normalize_doc_type] always answers with a name of the registry
    or with "GENERIC", whatever the registry holds and whatever it is given;
    an empty list gives "GENERIC". *)
Theorem normalize_doc_type_range registry doc_type :
  (_normalize_doc_type registry doc_type = "GENERIC"
   \/ In (_normalize_doc_type registry doc_type) (map fst registry))
  /\ _normalize_doc_type registry (DocTypeList []) = "GENERIC".
Proof.
  split; [|reflexivity].
  assert (H : forall s,
            normalize_text registry s = "GENERIC"
            \/ In (normalize_text registry s) (map fst registry)).
  { intros s. unfold normalize_text.
    destruct (find _ registry) as [entry|] eqn:E; [|now left].
    right. apply find_some in E. destruct E as [Hin _].
    now apply in_map. }
  destruct doc_type as [s|[|first rest]]; simpl; [apply H|now left|apply H].
Qed.

(** X15. With the registry of the class, the entries "BRD" and "FRD" shadow
    the entry "NFRD": a document type whose cleaned text contains "FRD" or
    "FUNCTIONAL" (such as "NFRD", "non-functional" or "NON_FUNCTIONAL") is
    normalised to "BRD" or "FRD", never to "NFRD"; and a blank text is
    normalised to "BRD", not to "GENERIC". *)
Theorem functional_names_shadow_nfrd s :
  (PyStr.contains "FRD" (clean_doc_type s) = true
   \/ PyStr.contains "FUNCTIONAL" (clean_doc_type s) = true ->
   _normalize_doc_type DOC_TYPE_REGISTRY (DocTypeText s) = "BRD"
   \/ _normalize_doc_type DOC_TYPE_REGISTRY (DocTypeText s) = "FRD")
  /\ (clean_doc_type s = "" ->
      _normalize_doc_type DOC_TYPE_REGISTRY (DocTypeText s) = "BRD").
Proof.
  unfold _normalize_doc_type, normalize_text, DOC_TYPE_REGISTRY.
  cbn [find]. split.
  - intros H.
    destruct (matches_entry (clean_doc_type s) ("BRD", _)); [now left|].
    right.
    assert (E : matches_entry (clean_doc_type s)
                  ("FRD", ["FRD"; "FUNCTIONAL"; "FNRD"; "FUNCTIONAL_REQUIREMENTS"])
                = true).
    { unfold matches_entry. cbn [snd existsb].
      destruct H as [H|H]; rewrite H; cbn [orb];
        rewrite ?orb_true_r; reflexivity. }
    rewrite E. reflexivity.
  - intros ->. reflexivity.
Qed.

Example nfrd_names_are_normalised_to_frd :
  map (fun s => _normalize_doc_type DOC_TYPE_REGISTRY (DocTypeText s))
    ["NFRD"; "non-functional"; "NON_FUNCTIONAL"; "nonfunctional"; "  "]
  = ["FRD"; "FRD"; "FRD"; "FRD"; "BRD"].
Proof. vm_compute. reflexivity. Qed.

End DocumentTypes.

(** ** Phase 1 of the coordinator *)

Section DispatchParsing.

Local Open Scope list_scope.

Lemma upto_close_spec s : forall body,
  upto_close s = Some body ->
  exists inner post,
    body = (inner ++ "}")%string /\ s = (body ++ post)%string
    /\ PyStr.contains "}" inner = false.
Proof.
  induction s as [|c s IH]; intros body H; [discriminate|].
  simpl in H. destruct (Ascii.eqb c "}") eqn:E.
  - injection H as <-. apply Ascii.eqb_eq in E. subst c.
    exists "", s. repeat split.
  - destruct (upto_close s) as [b|]; [|discriminate].
    injection H as <-.
    destruct (IH b eq_refl) as (inner & post & -> & -> & Hno).
    exists (String c inner), post. repeat split.
    cbn [PyStr.contains String.prefix]. rewrite Hno, orb_false_r.
    destruct (Ascii.ascii_dec "}" c) as [<-|_]; [discriminate E|reflexivity].
Qed.

(** X16. What phase 1 takes for the dispatcher's JSON is a piece of the
    reply that opens with a brace, closes with a brace and has at least one
    character and no closing brace in between: the match always ends at the
    first closing brace, so an object that nests another one is never
    matched whole. *)
Theorem dispatch_match_ends_at_first_close s : forall fragment,
  dispatch_json_match s = Some fragment ->
  exists pre inner post,
    s = (pre ++ fragment ++ post)%string
    /\ fragment = ("{" ++ inner ++ "}")%string
    /\ inner <> ""%string
    /\ PyStr.contains "}" inner = false.
Proof.
  induction s as [|c s IH]; intros fragment H; [discriminate|].
  cbn [dispatch_json_match] in H.
  assert (Hnext :
    dispatch_json_match s = Some fragment ->
    exists pre inner post,
      String c s = (pre ++ fragment ++ post)%string
      /\ fragment = ("{" ++ inner ++ "}")%string
      /\ inner <> ""%string
      /\ PyStr.contains "}" inner = false).
  { intros H'. destruct (IH _ H') as (pre & inner & post & -> & Hf & Hi & Hno).
    exists (String c pre), inner, post. repeat split; assumption. }
  destruct (Ascii.eqb c "{") eqn:E; [|now apply Hnext].
  destruct (upto_close s) as [body|] eqn:U; [|now apply Hnext].
  destruct (2 <=? String.length body)%nat eqn:L; [|now apply Hnext].
  injection H as <-. apply Ascii.eqb_eq in E. subst c.
  destruct (upto_close_spec _ _ U) as (inner & post & -> & -> & Hno).
  exists "", inner, post. repeat split; [|exact Hno].
  intros ->. discriminate L.
Qed.

Lemma dispatch_match_ends_at_first_close_witness :
  exists pre inner post,
    nested_reply = (pre ++ PyStr.take 57 nested_reply ++ post)%string
    /\ PyStr.take 57 nested_reply = ("{" ++ inner ++ "}")%string
    /\ inner <> ""%string
    /\ PyStr.contains "}" inner = false.
Proof.
  apply dispatch_match_ends_at_first_close. reflexivity.
Defined.

Section WithAgents.

Variable ask : Role -> string -> string.

Lemma generation_phases_result stamp request dispatch_result context log :
  let requirements := ask Analyst (analyst_prompt request) in
  let code_analysis :=
    if code_supplied context
    then ask Researcher (researcher_prompt request context)
    else no_code_placeholder in
  let document :=
    ask Writer
      (writer_prompt request dispatch_result requirements code_analysis) in
  fst (generation_phases ask stamp request dispatch_result context log)
  = CoordCompleted
      {| out_document :=
           ask Editor
             (editor_prompt document
                (ask SecurityReviewer (security_prompt document)));
         out_output_path :=
           ("outputs/GENERIC_delegation_" ++ stamp ++ ".md")%string;
         out_document_type := "GENERIC";
         out_workflow :=
           ["Dispatcher"; "Analyst"; "Researcher"; "Writer";
            "Security Reviewer"; "Editor"] |}.
Proof.
  unfold generation_phases, parallel_research, bind, call, ret.
  destruct (code_supplied context); reflexivity.
Qed.


(** X18. When phase 1 finds a brace group in the dispatcher's reply and that
    group does not parse, the whole reply is not tried: [coordinate]
    continues with the remaining phases and does not ask for clarification,
    whatever the complete reply says. *)
Theorem unparsable_fragment_skips_clarification
    json_loads stamp request context fragment :
  dispatch_json_match (ask Dispatcher (dispatch_prompt request))
  = Some fragment ->
  json_loads fragment = None ->
  exists out,
    fst (coordinate ask (phase1_parse json_loads) stamp request context [])
    = CoordCompleted out.
Proof.
  intros Hm Hl. eexists.
  unfold coordinate, bind, call. cbn [fst snd app].
  unfold phase1_parse. rewrite Hm, Hl.
  apply generation_phases_result.
Qed.

End WithAgents.


(** The reply asks for clarification, and parsed as a whole it would be
    understood; the brace group found in it is cut at the first closing
    brace and does not parse. *)
Lemma unparsable_fragment_skips_clarification_witness :
  exists out,
    fst (coordinate nesting_dispatcher (phase1_parse strict_loads)
           "20260101_100000" "Generate documentation"
           (mkCoordContext None None) [])
    = CoordCompleted out.
Proof.
  apply (unparsable_fragment_skips_clarification nesting_dispatcher
           strict_loads _ _ _ (PyStr.take 57 nested_reply)).
  - reflexivity.
  - reflexivity.
Defined.

End DispatchParsing.

(** ** The balanced object of the response parser *)

Section BalancedObject.

Local Open Scope list_scope.

Lemma scan_object_spec s : forall depth m,
  1 <= depth ->
  scan_object depth s = Some m ->
  exists post,
    s = (m ++ post)%string
    /\ depth + brace_depth m = 0
    /\ forall n, (n < String.length m)%nat ->
                 1 <= depth + brace_depth (String.substring 0 n m).
Proof.
  induction s as [|c s IH]; intros depth m Hd H; [discriminate|].
  cbn [scan_object] in H.
  assert (Hstep :
    forall d' delta,
      1 <= d' -> d' = depth + delta ->
      (if Ascii.eqb c "{" then 1 else if Ascii.eqb c "}" then -1 else 0)
      = delta ->
      option_map (String c) (scan_object d' s) = Some m ->
      exists post,
        String c s = (m ++ post)%string
        /\ depth + brace_depth m = 0
        /\ forall n, (n < String.length m)%nat ->
                     1 <= depth + brace_depth (String.substring 0 n m)).
  { intros d' delta Hd' Hdelta Hc Hm.
    destruct (scan_object d' s) as [m'|] eqn:E; [|discriminate].
    injection Hm as <-.
    destruct (IH d' m' Hd' E) as (post & -> & Hbal & Hpre).
    exists post. split; [reflexivity|]. split.
    - cbn [brace_depth]. rewrite Hc. lia.
    - intros [|n] Hn.
      + destruct m'; cbn; lia.
      + cbn [String.substring brace_depth]. rewrite Hc.
        simpl in Hn. specialize (Hpre n ltac:(lia)). lia. }
  destruct (Ascii.eqb c "{") eqn:Eo.
  - apply (Hstep (depth + 1) 1); [lia|reflexivity|reflexivity|exact H].
  - destruct (Ascii.eqb c "}") eqn:Ec.
    + destruct (depth - 1 =? 0) eqn:Ez.
      * injection H as <-. apply Z.eqb_eq in Ez.
        exists s. split; [reflexivity|]. split.
        -- cbn [brace_depth]. rewrite Eo, Ec. lia.
        -- intros [|n] Hn; [cbn; lia|simpl in Hn; lia].
      * apply Z.eqb_neq in Ez.
        apply (Hstep (depth - 1) (-1)); [lia|lia|reflexivity|exact H].
    + apply (Hstep depth 0); [lia|lia|reflexivity|exact H].
Qed.

Lemma from_first_open_spec s : forall rest,
  from_first_open s = Some rest ->
  exists pre rest',
    s = (pre ++ rest)%string /\ rest = String "{" rest'
    /\ PyStr.contains "{" pre = false.
Proof.
  induction s as [|c s IH]; intros rest H; [discriminate|].
  cbn [from_first_open] in H. destruct (Ascii.eqb c "{") eqn:E.
  - injection H as <-. apply Ascii.eqb_eq in E. subst c.
    exists "", s. repeat split.
  - destruct (IH _ H) as (pre & rest' & -> & -> & Hno).
    exists (String c pre), rest'. repeat split.
    cbn [PyStr.contains String.prefix]. rewrite Hno, orb_false_r.
    destruct (Ascii.ascii_dec "{" c) as [<-|_]; [discriminate E|reflexivity].
Qed.

(** X19. The text that strategy 3 of [_extract_json_from_response] hands
    to the JSON parser starts at the first opening brace of the response and
    is the shortest balanced piece from there: it has as many opening as
    closing braces, and each of its proper prefixes has more opening than
    closing ones. (Braces are counted wherever they stand, also inside
    string literals.) *)
Theorem first_object_span_is_balanced response span :
  first_object_span response = Some span ->
  exists pre post,
    response = (pre ++ span ++ post)%string
    /\ PyStr.contains "{" pre = false
    /\ String.get 0 span = Some "{"%char
    /\ brace_depth span = 0
    /\ forall n, (0 < n < String.length span)%nat ->
                 0 < brace_depth (PyStr.take n span).
Proof.
  unfold first_object_span. intros H.
  destruct (from_first_open response) as [rest|] eqn:F; [|discriminate].
  destruct (from_first_open_spec _ _ F) as (pre & rest' & -> & -> & Hno).
  cbn [scan_object] in H. change (Ascii.eqb "{" "{") with true in H.
  cbv iota in H. change (0 + 1) with 1 in H.
  destruct (scan_object 1 rest') as [m|] eqn:E; [|discriminate].
  injection H as <-.
  destruct (scan_object_spec rest' 1 m ltac:(lia) E) as (post & -> & Hbal & Hpre).
  exists pre, post. split; [reflexivity|]. split; [exact Hno|].
  split; [reflexivity|]. split.
  - cbn [brace_depth]. change (Ascii.eqb "{" "{") with true. cbv iota. lia.
  - intros [|n] [Hn0 Hn]; [lia|].
    unfold PyStr.take. cbn [String.substring brace_depth].
    change (Ascii.eqb "{" "{") with true. cbv iota.
    simpl in Hn. specialize (Hpre n ltac:(lia)). lia.
Qed.

Lemma first_object_span_is_balanced_witness :
  exists pre post,
    prose_reply = (pre ++ "{a: {b: 1}, c: 2}" ++ post)%string
    /\ PyStr.contains "{" pre = false
    /\ String.get 0 "{a: {b: 1}, c: 2}" = Some "{"%char
    /\ brace_depth "{a: {b: 1}, c: 2}" = 0
    /\ forall n, (0 < n < String.length "{a: {b: 1}, c: 2}")%nat ->
                 0 < brace_depth (PyStr.take n "{a: {b: 1}, c: 2}").
Proof.
  apply first_object_span_is_balanced. reflexivity.
Defined.

End BalancedObject.

(** ** The store shared by the agents *)

Section SharedStoreFacts.

Local Open Scope list_scope.

Variable V : Type.

Lemma store_get_set_same (d : list (string * V)) k v :
  store_get (store_set d k v) k = Some v.
Proof.
  induction d as [|[k' v'] d IH]; simpl.
  - now rewrite String.eqb_refl.
  - destruct (String.eqb k' k) eqn:E; simpl; rewrite E; [reflexivity|exact IH].
Qed.

Lemma store_get_set_other (d : list (string * V)) k v k0 :
  String.eqb k k0 = false -> store_get (store_set d k v) k0 = store_get d k0.
Proof.
  intros Hne.
  induction d as [|[k' v'] d IH]; simpl.
  - now rewrite Hne.
  - destruct (String.eqb k' k) eqn:E; simpl.
    + apply String.eqb_eq in E. subst k'. now rewrite Hne.
    + destruct (String.eqb k' k0); [reflexivity|exact IH].
Qed.

Lemma run_ops_app (ops1 ops2 : list (StoreOp V)) s :
  run_ops (ops1 ++ ops2) s = run_ops ops2 (run_ops ops1 s).
Proof. unfold run_ops. apply fold_left_app. Qed.

Lemma unwritten_key_is_kept k : forall (ops : list (StoreOp V)) s,
  forallb (fun op => negb (writes_key k op)) ops = true ->
  get_shared_state k (run_ops ops s) = get_shared_state k s.
Proof.
  induction ops as [|op ops IH]; intros s H; [reflexivity|].
  cbn [forallb] in H. apply andb_prop in H. destruct H as [Hop Hops].
  change (run_ops (op :: ops) s) with (run_ops ops (run_op s op)).
  rewrite (IH _ Hops).
  destruct op as [a b c d e|a key v|a b c d e]; try reflexivity.
  unfold get_shared_state. cbn [run_op publish_state states].
  apply store_get_set_other.
  cbn [writes_key] in Hop. now apply negb_true_iff in Hop.
Qed.

(** X20. A published state can be read back, and the last writer wins:
    after any sequence of operations, [get_shared_state] returns the value
    of the last [publish_state] for that key, whatever was published under
    other keys, sent or handed over in between or afterwards; a key that
    nobody wrote keeps what it had. *)
Theorem last_published_state_is_read_back
    (before after : list (StoreOp V)) self_name k v s :
  forallb (fun op => negb (writes_key k op)) after = true ->
  get_shared_state k
    (run_ops (before ++ OpPublish self_name k v :: after) s) = Some v
  /\ (forallb (fun op => negb (writes_key k op)) before = true ->
      get_shared_state k (run_ops (before ++ after) s)
      = get_shared_state k s).
Proof.
  intros Hafter. split.
  - rewrite run_ops_app.
    change (run_ops (OpPublish self_name k v :: after) (run_ops before s))
      with (run_ops after (publish_state self_name k v (run_ops before s))).
    rewrite (unwritten_key_is_kept k after _ Hafter).
    apply store_get_set_same.
  - intros Hbefore. rewrite run_ops_app.
    rewrite (unwritten_key_is_kept k after _ Hafter).
    apply (unwritten_key_is_kept k before _ Hbefore).
Qed.

(** X21. Messages are neither lost, reordered nor misdelivered: after any
    sequence of operations the inbox of an agent is its earlier inbox
    followed by the messages sent to it, in the order in which they were
    sent; and reading an inbox does not empty it. *)
Theorem inbox_collects_messages_in_order
    (ops : list (StoreOp V)) agent_name s :
  get_messages_for_agent agent_name (run_ops ops s)
  = get_messages_for_agent agent_name s
    ++ filter (fun msg => String.eqb msg.(msg_to) agent_name)
         (flat_map message_of ops).
Proof.
  revert s. induction ops as [|op ops IH]; intros s.
  - cbn. now rewrite app_nil_r.
  - change (run_ops (op :: ops) s) with (run_ops ops (run_op s op)).
    rewrite IH. cbn [flat_map]. rewrite filter_app, app_assoc. f_equal.
    destruct op as [a b c d e|a key v|a b c d e];
      unfold get_messages_for_agent; cbn [run_op message_of];
      [|cbn; now rewrite app_nil_r..].
    unfold send_message_to_agent. cbn [messages].
    now rewrite filter_app.
Qed.


End SharedStoreFacts.

Lemma last_published_state_is_read_back_witness :
  get_shared_state "requirements"
    (run_ops
       ([] ++ OpPublish "Requirement Analyst" "requirements"
                "checkout in three steps"
              :: tl sample_ops) empty_store)
  = Some "checkout in three steps"
  /\ (forallb (fun op => negb (writes_key "requirements" op))
        (@nil (StoreOp string)) = true ->
      get_shared_state "requirements" (run_ops ([] ++ tl sample_ops) empty_store)
      = get_shared_state "requirements" empty_store).
Proof.
  apply (last_published_state_is_read_back string []). reflexivity.
Defined.

(** ** Queries between agents *)

Section AgentQueries.

Local Open Scope list_scope.

Variable V : Type.

(** X23. An answered query leaves exactly two messages: the question in the
    inbox of the agent that was asked and the answer, cut to 200
    characters, in the inbox of the agent that asked; no other inbox and no
    published state changes, and the log gains two entries. *)
Theorem answered_query_is_recorded_on_both_sides
    registry self_name now1 now2 target query (s : SharedStore V) response :
  String.eqb target self_name = false ->
  fst (query_agent registry self_name now1 now2 target query s)
    = QueryAnswer response ->
  let s' := snd (query_agent registry self_name now1 now2 target query s) in
  get_messages_for_agent target s'
    = get_messages_for_agent target s
      ++ [mkMessage self_name target query "query" now1]
  /\ get_messages_for_agent self_name s'
     = get_messages_for_agent self_name s
       ++ [mkMessage self_name self_name
             ("Response to query: " ++ PyStr.take 200 response)%string
             "result" now2]
  /\ (forall other,
        String.eqb target other = false ->
        String.eqb self_name other = false ->
        get_messages_for_agent other s' = get_messages_for_agent other s)
  /\ (forall k, get_shared_state k s' = get_shared_state k s)
  /\ List.length s'.(communication_log)
     = (List.length s.(communication_log) + 2)%nat.
Proof.
  intros Hts Hres s'. subst s'. revert Hres.
  unfold query_agent.
  destruct (store_get registry target) as [entry|]; [|discriminate].
  destruct (registered entry); [|discriminate].
  destruct (run entry query) as [r|e]; [|discriminate].
  cbn [fst snd]. intros [= ->].
  assert (Hst : String.eqb self_name target = false)
    by (now rewrite String.eqb_sym).
  unfold get_messages_for_agent, get_shared_state, send_message_to_agent.
  cbn [messages states communication_log].
  repeat split.
  - rewrite !filter_app. cbn [filter msg_to].
    rewrite String.eqb_refl, Hst. now rewrite app_nil_r.
  - rewrite !filter_app. cbn [filter msg_to].
    rewrite String.eqb_refl, Hts. now rewrite app_nil_r.
  - intros other H1 H2. rewrite !filter_app. cbn [filter msg_to].
    rewrite H1, H2. now rewrite !app_nil_r.
  - rewrite !length_app. cbn [List.length]. lia.
Qed.

(** X24. A query that gets no answer: when the name is not in the registry
    the store is left as it was; when the entry has no live agent, or its
    [run] raises, the question has already been queued for the target and
    stays there without any answer being recorded. *)
Theorem unanswered_query_effects
    registry self_name now1 now2 target query (s : SharedStore V) :
  (forall response,
     fst (query_agent registry self_name now1 now2 target query s)
       <> QueryAnswer response) ->
  let s' := snd (query_agent registry self_name now1 now2 target query s) in
  (store_get registry target = None -> s' = s)
  /\ (store_get registry target <> None ->
      s'.(messages)
        = s.(messages) ++ [mkMessage self_name target query "query" now1]
      /\ forall name,
           filter (fun msg => String.eqb msg.(msg_type) "result")
             (get_messages_for_agent name s')
           = filter (fun msg => String.eqb msg.(msg_type) "result")
               (get_messages_for_agent name s)).
Proof.
  intros Hno s'. subst s'. revert Hno. unfold query_agent.
  destruct (store_get registry target) as [entry|].
  - intros Hno. split; [discriminate|]. intros _.
    assert (E : snd (if registered entry
                 then match run entry query with
                      | Returns response =>
                          (QueryAnswer response,
                           send_message_to_agent self_name now2 self_name
                             ("Response to query: "
                              ++ PyStr.take 200 response)%string "result"
                             (send_message_to_agent self_name now1 target
                                query "query" s))
                      | Raises str_e =>
                          (QueryRaises str_e,
                           send_message_to_agent self_name now1 target
                             query "query" s)
                      end
                 else (QueryNone,
                       send_message_to_agent self_name now1 target query
                         "query" s))
              = send_message_to_agent self_name now1 target query "query" s).
    { destruct (registered entry); [|reflexivity].
      destruct (run entry query) as [r|e]; [|reflexivity].
      exfalso. apply (Hno r). reflexivity. }
    rewrite E. split; [reflexivity|].
    intros name. unfold get_messages_for_agent, send_message_to_agent.
    cbn [messages]. rewrite !filter_app. cbn [filter msg_to msg_type].
    destruct (String.eqb target name); cbn; now rewrite app_nil_r.
  - intros _. split; [reflexivity|]. intros H. now elim H.
Qed.

End AgentQueries.

Lemma answered_query_is_recorded_on_both_sides_witness :
  let s' := snd (query_agent sample_registry "Technical Writer"
                   "2026-01-01 10:00:00" "2026-01-01 10:00:05"
                   "Code Researcher" "Which framework?" empty_store) in
  List.length s'.(communication_log)
  = (List.length empty_store.(communication_log) + 2)%nat.
Proof.
  intros s'.
  apply (answered_query_is_recorded_on_both_sides string sample_registry
           "Technical Writer" "2026-01-01 10:00:00" "2026-01-01 10:00:05"
           "Code Researcher" "Which framework?" empty_store
           "FastAPI with SQLite"); reflexivity.
Defined.

Lemma unanswered_query_effects_witness :
  snd (query_agent sample_registry "Technical Writer"
         "2026-01-01 10:00:00" "2026-01-01 10:00:05"
         "Security Reviewer" "Any secrets?" empty_store) = empty_store.
Proof.
  apply (unanswered_query_effects string sample_registry "Technical Writer"
           "2026-01-01 10:00:00" "2026-01-01 10:00:05"
           "Security Reviewer" "Any secrets?" empty_store).
  - intros response. discriminate.
  - reflexivity.
Defined.

(** ** Detection of technologies and suggested documents *)

Section ContextDetection.

Local Open Scope list_scope.

(** Follows a name through the blocks that build a list. *)
Ltac trace_name H :=
  repeat first
    [ discriminate H
    | match type of H with
      | In _ (if ?b then _ else _) => destruct b
      | In _ (_ ++ _) => apply in_app_or in H; destruct H as [H|H]
      | In _ (_ :: _) => destruct H as [H|H]
      | In _ [] => destruct H
      | _ \/ _ => destruct H as [H|H]
      | False => destruct H
      end ].

Lemma detected_technologies_are_known listing t :
  In t (_detect_technologies listing) -> In t known_technologies.
Proof.
  destruct listing as [file_names|]; [|intros []].
  unfold _detect_technologies. intros H.
  trace_name H; subst t; cbn; tauto.
Qed.

Lemma listed_iff x techs :
  existsb (String.eqb x) (map PyStr.lower techs) = true
  <-> exists t, In t techs /\ PyStr.lower t = x.
Proof.
  rewrite existsb_exists. split.
  - intros (y & Hy & E). apply String.eqb_eq in E. subst y.
    apply in_map_iff in Hy. destruct Hy as (t & E & Ht). now exists t.
  - intros (t & Ht & E). exists x. split; [|apply String.eqb_refl].
    apply in_map_iff. now exists t.
Qed.

Lemma suggestion_blocks (bA bC bF bD : bool) :
  let suggested :=
    (if bA then ["API Documentation"] else [])
    ++ (if bC then ["Cloud Deployment Guide"] else [])
    ++ (if bF then ["Functional Requirements Document (FRD)"] else [])
    ++ (if bD then ["Data Architecture Document"] else []) in
  (In "API Documentation" suggested <-> bA = true)
  /\ (In "Cloud Deployment Guide" suggested <-> bC = true)
  /\ (In "Functional Requirements Document (FRD)" suggested <-> bF = true)
  /\ (In "Data Architecture Document" suggested <-> bD = true)
  /\ NoDup suggested.
Proof.
  destruct bA, bC, bF, bD; cbn;
    refine (conj _ (conj _ (conj _ (conj _ _))));
    try (split; intros H;
         [try reflexivity; trace_name H
         |try discriminate H; auto 10]);
    repeat (constructor; [cbn; intros H; trace_name H|]);
    try constructor.
Qed.

Lemma known_cases t (P : string -> Prop) :
  In t known_technologies ->
  P "Python" -> P "FastAPI" -> P "Flask/Django" -> P "Node.js" ->
  P "Next.js" -> P "Vite/React" -> P "Java/Maven" -> P ".NET/C#" ->
  P "Docker" -> P "Kubernetes" -> P "SQL Database" -> P t.
Proof.
  intros H. cbn in H.
  repeat (destruct H as [<-|H]; [tauto|]). destruct H.
Qed.

(** X25. What is suggested for a code directory: the FRD as soon as any
    technology was detected; the API documentation exactly for FastAPI and
    Node.js projects (a project detected as Flask/Django gets none); the
    cloud deployment guide exactly for Docker and Kubernetes; the data
    architecture document exactly when SQL files were found.  No suggestion
    is listed twice. *)
Theorem suggestions_follow_detected_technologies listing :
  let detected := _detect_technologies listing in
  let suggested := _suggest_doc_types_from_tech detected in
  (In "Functional Requirements Document (FRD)" suggested <-> detected <> [])
  /\ (In "API Documentation" suggested
      <-> In "FastAPI" detected \/ In "Node.js" detected)
  /\ (In "Cloud Deployment Guide" suggested
      <-> In "Docker" detected \/ In "Kubernetes" detected)
  /\ (In "Data Architecture Document" suggested
      <-> In "SQL Database" detected)
  /\ NoDup suggested.
Proof.
  intros detected suggested.
  assert (Hknown : forall t, In t detected -> In t known_technologies)
    by apply detected_technologies_are_known.
  clearbody detected. subst suggested. unfold _suggest_doc_types_from_tech.
  match goal with
  | |- context [(if ?a then _ else _) ++ (if ?c then _ else _)
                ++ (if ?f then _ else _) ++ (if ?d then _ else _)] =>
      destruct (suggestion_blocks a c f d) as (HA & HC & HF & HD & HN);
      cbv zeta in HA, HC, HF, HD, HN
  end.
  refine (conj _ (conj _ (conj _ (conj _ HN)))); split.
  - intros H. apply HF in H. apply Nat.ltb_lt in H.
    intros E. rewrite E in H. cbn in H. lia.
  - intros H. apply HF. apply Nat.ltb_lt.
    destruct detected; [congruence|cbn; lia].
  - intros H. apply HA in H. apply existsb_exists in H.
    destruct H as (x & Hx & H). apply listed_iff in H.
    destruct H as (t & Ht & E). pose proof (Hknown t Ht) as Hk.
    revert Ht E.
    apply (known_cases t
             (fun t => In t detected -> PyStr.lower t = x -> _) Hk);
      intros Ht E; subst x; cbn in Hx;
      try tauto;
      repeat (destruct Hx as [Hx|Hx]; [discriminate Hx|]); destruct Hx.
  - intros H. apply HA. apply existsb_exists.
    destruct H as [H|H].
    + exists "fastapi". split; [cbn; tauto|].
      apply listed_iff. now exists "FastAPI".
    + exists "node.js". split; [cbn; tauto|].
      apply listed_iff. now exists "Node.js".
  - intros H. apply HC in H. apply existsb_exists in H.
    destruct H as (x & Hx & H). apply listed_iff in H.
    destruct H as (t & Ht & E). pose proof (Hknown t Ht) as Hk.
    revert Ht E.
    apply (known_cases t
             (fun t => In t detected -> PyStr.lower t = x -> _) Hk);
      intros Ht E; subst x; cbn in Hx;
      try tauto;
      repeat (destruct Hx as [Hx|Hx]; [discriminate Hx|]); destruct Hx.
  - intros H. apply HC. apply existsb_exists.
    destruct H as [H|H].
    + exists "docker". split; [cbn; tauto|].
      apply listed_iff. now exists "Docker".
    + exists "kubernetes". split; [cbn; tauto|].
      apply listed_iff. now exists "Kubernetes".
  - intros H. apply HD in H. apply existsb_exists in H.
    destruct H as (y & Hy & H). apply in_map_iff in Hy.
    destruct Hy as (t & E & Ht). subst y. pose proof (Hknown t Ht) as Hk.
    revert Ht H.
    apply (known_cases t
             (fun t => In t detected -> _ = true -> _) Hk);
      intros Ht E;
      try discriminate E; exact Ht.
  - intros H. apply HD. apply existsb_exists.
    exists "sql database". split; [|reflexivity].
    apply in_map_iff. now exists "SQL Database".
Qed.

End ContextDetection.

(** ** The first analysis of a conversation *)

Section FirstAnalysis.

Local Open Scope list_scope.
Local Open Scope Q_scope.

Lemma is_proceed_analysis reply ctx :
  is_proceed (_analyze_and_clarify reply ctx)
  = Qle_bool 0.7 (_calculate_confidence ctx)
    || (ctx.(max_clarification_rounds) <=? ctx.(clarification_round))%Z
    || (ctx.(max_empty_responses) <=? ctx.(empty_response_count))%Z
    || ((2 <=? ctx.(clarification_round))%Z
        && (match ctx.(gathered_info) with [] => true | _ => false end
            || (List.length ctx.(gathered_info) <? 2)%nat)).
Proof.
  unfold _analyze_and_clarify.
  destruct (Qle_bool 0.7 (_calculate_confidence ctx)); [reflexivity|].
  cbn [set_confidence max_clarification_rounds clarification_round
       max_empty_responses empty_response_count gathered_info].
  destruct (_ <=? _)%Z; [reflexivity|].
  destruct (_ <=? _)%Z; [reflexivity|].
  cbn [orb].
  match goal with |- context [if ?b then _ else _] => destruct b end;
    [reflexivity|].
  destruct (ask_intelligent_questions_result reply
              (set_confidence ctx (_calculate_confidence ctx)))
    as (qs & _ & E).
  cbn [set_confidence] in E. rewrite E. reflexivity.
Qed.

Lemma score_step_slack acc kv :
  fst (score_step acc kv) - snd (score_step acc kv)
  == fst acc - snd acc + slack (snd kv).
Proof.
  destruct acc as [s t]. unfold score_step, slack. cbv zeta.
  destruct (counts_as_fact (snd kv)); cbn [fst snd]; [|lra].
  destruct (5 <=? _)%nat; cbn [fst snd]; [|lra].
  destruct (50 <? _)%nat; cbn [fst snd]; lra.
Qed.

Lemma fold_score_slack d : forall acc,
  fst (fold_left score_step d acc) - snd (fold_left score_step d acc)
  == fst acc - snd acc + total_slack d.
Proof.
  induction d as [|kv d IH]; intros acc; cbn [fold_left].
  - cbn. lra.
  - change (total_slack (kv :: d)) with (slack (snd kv) + total_slack d).
    rewrite IH, score_step_slack. lra.
Qed.

Lemma slack_le v : slack v <= 0.3.
Proof.
  unfold slack. destruct (counts_as_fact v); [|lra].
  destruct (5 <=? _)%nat; [|lra]. destruct (50 <? _)%nat; lra.
Qed.

Lemma slack_yes : slack (of_str "Yes") == -1.
Proof. reflexivity. Qed.

Lemma info_below_one st : fst st - snd st < 0 -> info_score_of st < 1.
Proof.
  destruct st as [s t]. cbn [fst snd]. intros H. unfold info_score_of.
  destruct (Qlt_bool 0 t); [|lra].
  assert (Hm : t <= Qmax t 1) by apply Q.le_max_l.
  assert (H1 : 1 <= Qmax t 1) by apply Q.le_max_r.
  apply Qlt_shift_div_r; lra.
Qed.

(** With no exchange and no empty answer yet, facts that score nothing keep
    the confidence below the threshold. *)
Lemma diluted_confidence ctx :
  ctx.(conversation_history) = [] ->
  ctx.(empty_response_count) = 0%Z ->
  total_slack ctx.(gathered_info) < 0 ->
  Qle_bool 0.7 (_calculate_confidence ctx) = false.
Proof.
  intros Hh He Hs.
  assert (Hi : info_score ctx < 1).
  { apply info_below_one. unfold score_totals. rewrite fold_score_slack.
    cbn [fst snd]. lra. }
  assert (Hb : conversation_bonus ctx == 0)
    by (unfold conversation_bonus; rewrite Hh; reflexivity).
  assert (Hr : round_penalty ctx == 0).
  { unfold round_penalty. destruct (gathered_info ctx); [|reflexivity].
    cbn in Hs. lra. }
  assert (Hp : spam_penalty ctx == 0)
    by (unfold spam_penalty; rewrite He; reflexivity).
  destruct (Qle_bool 0.7 (_calculate_confidence ctx)) eqn:E; [|reflexivity].
  apply Qle_bool_iff in E. unfold _calculate_confidence in E.
  exfalso.
  assert (Hx : Qmax 0 (Qmin 1 (info_score ctx * 0.7 + conversation_bonus ctx
                                - round_penalty ctx - spam_penalty ctx))
               < 0.7).
  { apply Q.max_lub_lt; [lra|].
    eapply Qle_lt_trans; [apply Q.le_min_r|]. lra. }
  lra.
Qed.

Lemma first_hint_slack table request_lower hint :
  first_hint table request_lower = Some hint ->
  (forall kv, In kv table -> slack (of_str (fst kv)) <= 0) ->
  slack (of_str hint) <= 0.
Proof.
  induction table as [|[name keywords] table IH]; cbn [first_hint];
    [discriminate|].
  intros H Hall. destruct (existsb _ keywords).
  - injection H as <-. apply (Hall (name, keywords)). now left.
  - apply IH; [exact H|]. intros kv Hkv. apply Hall. now right.
Qed.

Lemma domain_names_slack kv :
  In kv domain_keywords -> slack (of_str (fst kv)) <= 0.
Proof.
  intros H. cbn in H.
  repeat (destruct H as [<-|H]; [vm_compute; discriminate|]). destruct H.
Qed.

Lemma doc_type_names_slack kv :
  In kv doc_type_keywords -> slack (of_str (fst kv)) <= 0.
Proof.
  intros H. cbn in H.
  repeat (destruct H as [<-|H]; [vm_compute; discriminate|]). destruct H.
Qed.

Lemma auto_detect_frame ws ctx :
  let ctx' := _auto_detect_context ws ctx in
  ctx'.(conversation_history) = ctx.(conversation_history)
  /\ ctx'.(clarification_round) = ctx.(clarification_round)
  /\ ctx'.(max_clarification_rounds) = ctx.(max_clarification_rounds)
  /\ ctx'.(empty_response_count) = ctx.(empty_response_count)
  /\ ctx'.(max_empty_responses) = ctx.(max_empty_responses)
  /\ ctx'.(user_request) = ctx.(user_request)
  /\ ctx'.(code_directory) = ctx.(code_directory)
  /\ ctx'.(input_files) = ctx.(input_files).
Proof.
  destruct ctx as [ur ch gi cr mcr cs cd inf lq erc mer ci mci esc].
  unfold _auto_detect_context. cbn [code_directory].
  repeat match goal with
         | |- context [match ?x with _ => _ end] => destruct x
         end; cbn; repeat split; reflexivity.
Qed.

Lemma supplied_slack ws ctx :
  ctx.(gathered_info) = [] ->
  material_supplied ws ctx.(code_directory) ctx.(input_files) = true ->
  total_slack (gathered_info (_auto_detect_context ws ctx)) < 0.
Proof.
  destruct ctx as [ur ch gi cr mcr cs cd inf lq erc mer ci mci esc].
  cbn [gathered_info code_directory input_files]. intros -> Hm.
  unfold _auto_detect_context, material_supplied in *.
  cbn [code_directory].
  destruct cd as [[|c d]|]; [| destruct (dir_exists ws);
    [destruct (_detect_technologies (dir_listing ws)) as [|t ts];
     [|destruct (_suggest_doc_types_from_tech (t :: ts)) as [|u us]]|]|];
  cbn [input_files update_info set_gathered_info user_request gathered_info
       conversation_history clarification_round max_clarification_rounds
       confidence_score code_directory last_questions empty_response_count
       max_empty_responses critique_iterations max_critique_iterations
       enable_self_critique];
  (destruct inf as [[|f fs]|]; [| destruct (file_types ws) as [|ft fts] |];
   cbn [orb] in Hm; try discriminate Hm);
  cbn [input_files update_info set_gathered_info user_request gathered_info
       conversation_history clarification_round max_clarification_rounds
       confidence_score code_directory last_questions empty_response_count
       max_empty_responses critique_iterations max_critique_iterations
       enable_self_critique];
  (destruct (first_hint domain_keywords (PyStr.lower ur)) as [dom|] eqn:Hdom;
   [pose proof (first_hint_slack _ _ _ Hdom domain_names_slack)|]);
  (destruct (first_hint doc_type_keywords (PyStr.lower ur)) as [doc|] eqn:Hdoc;
   [pose proof (first_hint_slack _ _ _ Hdoc doc_type_names_slack)|]);
  cbn [input_files update_info set_gathered_info user_request gathered_info
       conversation_history clarification_round max_clarification_rounds
       confidence_score code_directory last_questions empty_response_count
       max_empty_responses critique_iterations max_critique_iterations
       enable_self_critique];
  pose proof slack_yes as Hyes;
  repeat match goal with
         | |- context [of_list ?l] =>
             let v := fresh "v" in
             pose proof (slack_le (of_list l));
             set (v := of_list l) in *; clearbody v
         end;
  repeat match goal with
         | |- context [of_str ?x] =>
             let v := fresh "v" in
             set (v := of_str x) in *; clearbody v
         end;
  unfold total_slack; set (sl := slack) in *; clearbody sl;
  cbn; lra.
Qed.
Lemma first_hint_in table request_lower hint :
  first_hint table request_lower = Some hint -> In hint (map fst table).
Proof.
  induction table as [|[name keywords] table IH]; cbn [first_hint];
    [discriminate|].
  destruct (existsb _ keywords); intros H.
  - injection H as <-. now left.
  - right. now apply IH.
Qed.

(** X26. Supplying code or files makes the engine ask first: when the code
    directory exists or input files are given, the marker fact "Yes" that
    is stored for them counts as a fact but scores nothing, the confidence
    of the first analysis stays below 0.7 whatever is detected, and
    [start_conversation] returns a first round of at most three
    questions. *)
Theorem supplied_material_forces_a_question_round
    ws reply request dir files :
  material_supplied ws dir files = true ->
  exists qs ctx,
    start_conversation ws reply request dir files
    = NeedsClarification 1 qs ctx
    /\ (List.length qs <= 3)%nat
    /\ ctx.(confidence_score) < 0.7.
Proof.
  intros Hm. unfold start_conversation.
  set (c0 := new_context request dir files).
  destruct (auto_detect_frame ws c0) as (Hh & Hr & Hmr & He & Hme & _).
  set (c1 := _auto_detect_context ws c0) in *.
  assert (Hlow : Qle_bool 0.7 (_calculate_confidence c1) = false).
  { apply diluted_confidence; [rewrite Hh; reflexivity|
                               rewrite He; reflexivity|].
    apply supplied_slack; [reflexivity|exact Hm]. }
  destruct (analyze_and_clarify_cases reply c1)
    as [E|(_ & _ & qs & Hlen & E)].
  - exfalso. pose proof (is_proceed_analysis reply c1) as P.
    rewrite E, Hlow, Hr, Hmr, He, Hme in P. discriminate P.
  - rewrite Hr in E. eexists qs, _. split; [exact E|]. split; [exact Hlen|].
    cbn [set_last_questions set_round set_confidence confidence_score].
    now apply Qle_bool_false.
Qed.

Lemma bare_facts ws ctx :
  ctx.(gathered_info) = [] ->
  material_supplied ws ctx.(code_directory) ctx.(input_files) = false ->
  gathered_info (_auto_detect_context ws ctx)
  = hint_facts (PyStr.lower ctx.(user_request)).
Proof.
  destruct ctx as [ur ch gi cr mcr cs cd inf lq erc mer ci mci esc].
  cbn [gathered_info code_directory input_files user_request].
  intros -> Hm.
  unfold _auto_detect_context, material_supplied, hint_facts in *.
  cbn [code_directory].
  destruct cd as [[|c d]|]; [|destruct (dir_exists ws)|];
    try discriminate Hm;
    cbn [input_files update_info set_gathered_info user_request gathered_info
         conversation_history clarification_round max_clarification_rounds
         confidence_score code_directory last_questions empty_response_count
         max_empty_responses critique_iterations max_critique_iterations
         enable_self_critique] in *;
    (destruct inf as [[|f fs]|]; try discriminate Hm);
    cbn [input_files update_info set_gathered_info user_request gathered_info
         conversation_history clarification_round max_clarification_rounds
         confidence_score code_directory last_questions empty_response_count
         max_empty_responses critique_iterations max_critique_iterations
         enable_self_critique];
    destruct (first_hint domain_keywords (PyStr.lower ur));
    destruct (first_hint doc_type_keywords (PyStr.lower ur));
    reflexivity.
Qed.

(** The confidence reads the facts, the history, the round and the counter
    of empty answers only. *)
Lemma confidence_depends ctx ctx' :
  ctx.(conversation_history) = ctx'.(conversation_history) ->
  ctx.(clarification_round) = ctx'.(clarification_round) ->
  ctx.(empty_response_count) = ctx'.(empty_response_count) ->
  ctx'.(gathered_info) = ctx.(gathered_info) ->
  _calculate_confidence ctx = _calculate_confidence ctx'.
Proof.
  intros Hh Hr He Hg.
  unfold _calculate_confidence, info_score, conversation_bonus,
    round_penalty, spam_penalty.
  now rewrite Hh, Hr, He, Hg.
Qed.

(** X27. A request alone can skip the dialogue: without code and files the
    only facts of the first analysis are the domain and the document type
    found in the request, and [start_conversation] goes straight to
    generation exactly when at least one of them was found and every one
    found has a name of five characters or more ("trading", "SECURITY"),
    and asks otherwise ("api", "BRD"). *)
Theorem bare_request_can_skip_the_dialogue ws reply request dir files :
  material_supplied ws dir files = false ->
  is_proceed (start_conversation ws reply request dir files)
  = match first_hint domain_keywords (PyStr.lower request),
          first_hint doc_type_keywords (PyStr.lower request) with
    | Some domain, Some doc_type =>
        (5 <=? String.length domain)%nat
        && (5 <=? String.length doc_type)%nat
    | Some hint, None => (5 <=? String.length hint)%nat
    | None, Some hint => (5 <=? String.length hint)%nat
    | None, None => false
    end.
Proof.
  intros Hm. unfold start_conversation. rewrite is_proceed_analysis.
  set (c0 := new_context request dir files).
  destruct (auto_detect_frame ws c0) as (Hh & Hr & Hmr & He & Hme & _).
  pose proof (bare_facts ws c0 eq_refl Hm) as Hg.
  set (c1 := _auto_detect_context ws c0) in *.
  rewrite (confidence_depends c1 (set_gathered_info c0 (gathered_info c1))
             Hh Hr He eq_refl), Hr, Hmr, He, Hme, Hg.
  change (user_request c0) with request. clearbody c1.
  unfold hint_facts.
  destruct (first_hint domain_keywords (PyStr.lower request))
    as [dom|] eqn:Hdom;
    [apply first_hint_in in Hdom; cbn in Hdom;
     repeat (destruct Hdom as [<-|Hdom]); try (exfalso; exact Hdom)|];
    (destruct (first_hint doc_type_keywords (PyStr.lower request))
       as [doc|] eqn:Hdoc;
     [apply first_hint_in in Hdoc; cbn in Hdoc;
      repeat (destruct Hdoc as [<-|Hdoc]); try (exfalso; exact Hdoc)|]);
    vm_compute; reflexivity.
Qed.

End FirstAnalysis.

Lemma supplied_material_forces_a_question_round_witness :
  exists qs ctx,
    start_conversation fastapi_workspace (PriorityQuestions [])
      "Document my service" (Some "src") None
    = NeedsClarification 1 qs ctx
    /\ (List.length qs <= 3)%nat
    /\ (ctx.(confidence_score) < 0.7)%Q.
Proof.
  apply (supplied_material_forces_a_question_round fastapi_workspace
           (PriorityQuestions []) "Document my service" (Some "src") None).
  reflexivity.
Defined.

Lemma bare_request_can_skip_the_dialogue_witness :
  is_proceed
    (start_conversation fastapi_workspace (PriorityQuestions [])
       "Document the trading platform" None None)
  = true.
Proof.
  apply (bare_request_can_skip_the_dialogue fastapi_workspace
           (PriorityQuestions []) "Document the trading platform" None None).
  reflexivity.
Defined.


(** ** The quality assessment as a whole *)

Section QualityAssessment.

Local Open Scope list_scope.

(** X28. How the five rules of the assessor combine: the confidence is
    "high" exactly when no issue was recorded; a "low" confidence always
    comes with the low-confidence flag; the flag is raised exactly when the
    document has fewer than 500 words, lacks section markers, contains an
    error indicator or has a completeness below one half; every flag is
    "low_confidence" and is backed by an issue. *)
Theorem assessment_rules_combine doc :
  let a := _assess_document_quality doc in
  (a.(confidence) = High <-> a.(issues) = [])
  /\ (a.(confidence) = Low -> flagged_low a.(flags) = true)
  /\ flagged_low a.(flags)
     = (a.(word_count) <? 500)%nat || negb a.(has_sections)
       || has_error_indicator doc || Qlt_bool a.(completeness_score) 0.5
  /\ (forall f, In f a.(flags) -> f = "low_confidence")
  /\ (List.length a.(flags) <= List.length a.(issues))%nat.
Proof.
  unfold _assess_document_quality.
  destruct (PyStr.word_count doc <? 500)%nat eqn:W5;
    [|destruct (PyStr.word_count doc <? 1000)%nat eqn:W10];
    destruct (PyStr.contains_any section_indicators doc) eqn:S;
    destruct (has_error_indicator doc) eqn:E;
    destruct (has_placeholder doc) eqn:P;
    destruct (Qlt_bool (inject_Z (Z.of_nat (completeness_count doc)) / 5) 0.5)
      eqn:C;
    cbn [negb app confidence flags issues word_count has_sections
         completeness_score flagged_low existsb String.eqb orb];
    rewrite ?W5, ?C;
    (refine (conj _ (conj _ (conj _ (conj _ _))));
     [split; intros H; (discriminate H || reflexivity)
     |intros H; (discriminate H || reflexivity)
     |reflexivity
     |cbn; intros f H; repeat (destruct H as [<-|H]; [reflexivity|]);
      destruct H
     |cbn [List.length]; lia]).
Qed.

End QualityAssessment.

(** ** What the self-critique loop leaves in the state *)

Section CritiqueBookkeeping.

Local Open Scope list_scope.

Variable generate : nat -> string -> GenResult.
Variable editor_reply : nat -> string -> string.

Lemma dict_mem_set_same d k v : dict_mem k (dict_set d k v) = true.
Proof.
  apply dict_mem_In. rewrite dict_keys_dict_set.
  destruct (dict_mem k d) eqn:E; [now apply dict_mem_In|].
  apply in_or_app. right. now left.
Qed.

Lemma dict_mem_set_inv d k v k0 :
  dict_mem k0 (dict_set d k v) = true -> dict_mem k0 d = true \/ k0 = k.
Proof.
  rewrite !dict_mem_In, dict_keys_dict_set.
  destruct (dict_mem k d); [now left|].
  intros H. apply in_app_or in H. destruct H as [H|[<-|[]]]; auto.
Qed.

Lemma critiques_recorded_refl ctx : critiques_recorded ctx ctx [].
Proof.
  unfold critiques_recorded. cbn [List.length Z.of_nat].
  repeat split; auto; try lia.
Qed.

Lemma critiques_recorded_step ctx critique p :
  critiques_recorded ctx
    (update_info
       (set_critique_iterations ctx (ctx.(critique_iterations) + 1))
       (critique_key (ctx.(critique_iterations) + 1)) (of_str critique))
    [p].
Proof.
  unfold critiques_recorded, update_info.
  cbn [set_gathered_info set_critique_iterations critique_iterations
       gathered_info user_request conversation_history clarification_round
       confidence_score max_critique_iterations enable_self_critique
       List.length Z.of_nat].
  refine (conj _ (conj _ (conj _ (conj _ (conj _ _))))).
  - lia.
  - intros k. apply dict_set_keeps_keys.
  - intros j Hj. assert (j = critique_iterations ctx + 1) as -> by lia.
    apply dict_mem_set_same.
  - intros k H. apply dict_mem_set_inv in H. destruct H as [H| ->]; [now left|].
    right. exists (critique_iterations ctx + 1). split; [lia|reflexivity].
  - discriminate.
  - repeat split.
Qed.

Lemma critiques_recorded_trans ctx ctx1 ctx2 a1 a2 :
  critiques_recorded ctx ctx1 a1 -> critiques_recorded ctx1 ctx2 a2 ->
  critiques_recorded ctx ctx2 (a1 ++ a2).
Proof.
  unfold critiques_recorded.
  intros (Hc1 & Hk1 & Hj1 & Hi1 & He1 & Hu1 & Hh1 & Hr1 & Hs1 & Hm1 & Hen1)
         (Hc2 & Hk2 & Hj2 & Hi2 & He2 & Hu2 & Hh2 & Hr2 & Hs2 & Hm2 & Hen2).
  refine (conj _ (conj _ (conj _ (conj _ (conj _ _))))).
  - rewrite length_app. lia.
  - auto.
  - intros j Hj.
    destruct (Z_le_gt_dec j (critique_iterations ctx1)) as [L|G].
    + apply Hk2. apply Hj1. lia.
    + apply Hj2. lia.
  - intros k H. apply Hi2 in H. destruct H as [H|(j & Hj & ->)].
    + apply Hi1 in H. destruct H as [H|(j & Hj & ->)]; [now left|].
      right. exists j. split; [lia|reflexivity].
    + right. exists j. split; [lia|reflexivity].
  - intros E. apply app_eq_nil in E. destruct E as [E1 E2].
    rewrite (He2 E2). auto.
  - repeat split; congruence.
Qed.

(** What one activation does to the state. *)
Lemma critique_pass_state ctx tr :
  exists added,
    match critique_pass generate editor_reply ctx tr with
    | Done _ ctx' tr' | Again ctx' tr' =>
        tr'.(critique_prompts) = tr.(critique_prompts) ++ added
        /\ critiques_recorded ctx ctx' added
    end.
Proof.
  unfold critique_pass, call_generate, call_editor.
  destruct (enable_self_critique ctx && _ && _).
  - match goal with
    | |- context [of_str ?c] =>
        match goal with
        | |- context [mkTrace _ (_ ++ [?p])] =>
            exists [p];
            pose proof (critiques_recorded_step ctx c p) as R
        end
    end.
    cbv zeta. cbn [set_critique_iterations critique_iterations] in *.
    fold (critique_key (critique_iterations ctx + 1)).
    destruct (quality_not_low _); [split; [reflexivity|exact R]|].
    destruct (_ <? _); split; try reflexivity; exact R.
  - exists []. split; [cbn; now rewrite app_nil_r|].
    apply critiques_recorded_refl.
Qed.

(** X29. The bookkeeping of the self-critique loop: the round counter grows
    by exactly the number of critiques requested from the editor; each
    round stores its critique in the gathered facts under
    "critique_iteration_<round>"; no earlier fact is dropped and nothing
    else is added; the request, the history, the round of the dialogue, the
    confidence and the settings of the loop are untouched; and a run
    without any critique returns the state unchanged. *)
Theorem critique_rounds_are_recorded ctx tr :
  let out := _proceed_with_generation generate editor_reply ctx tr in
  exists added_crits,
    (snd out).(critique_prompts) = tr.(critique_prompts) ++ added_crits
    /\ critiques_recorded ctx (snd (fst out)) added_crits.
Proof.
  funelim (_proceed_with_generation generate editor_reply ctx tr).
  - clear Heqcall. cbn [fst snd].
    destruct (critique_pass_state ctx tr) as (added & C). rewrite e in C.
    now exists added.
  - clear Heqcall. cbn [fst snd] in H |- *.
    destruct (critique_pass_state ctx tr) as (a1 & C). rewrite Heq in C.
    destruct C as (Ht1 & R1). destruct H as (a2 & Ht2 & R2).
    exists (a1 ++ a2). split.
    + rewrite Ht2, Ht1. now rewrite app_assoc.
    + eapply critiques_recorded_trans; eassumption.
Qed.

End CritiqueBookkeeping.

(** ** Key lines of a source file *)

Section KeyPatterns.

Local Open Scope list_scope.

Lemma firstn_snoc_filter (p : string -> bool) line rest n acc :
  firstn n (acc ++ filter p (line :: rest))
  = firstn n ((if p line then acc ++ [line] else acc) ++ filter p rest).
Proof.
  cbn [filter]. destruct (p line); [|reflexivity].
  now rewrite <- app_assoc.
Qed.

Lemma collect_key_lines_spec max_lines : forall lines key_lines,
  (List.length key_lines < Z.to_nat max_lines)%nat ->
  collect_key_lines lines max_lines key_lines
  = firstn (Z.to_nat max_lines) (key_lines ++ filter is_key_line lines).
Proof.
  induction lines as [|line rest IH]; intros key_lines Hlen.
  - cbn [collect_key_lines filter]. rewrite app_nil_r.
    symmetry. apply firstn_all2. lia.
  - cbn [collect_key_lines].
    rewrite (firstn_snoc_filter is_key_line line rest _ key_lines).
    set (key_lines' := if is_key_line line then key_lines ++ [line]
                       else key_lines).
    assert (Hlen' : (List.length key_lines' <= Z.to_nat max_lines)%nat).
    { subst key_lines'. destruct (is_key_line line); [|lia].
      rewrite length_app. cbn [List.length]. lia. }
    destruct (max_lines <=? Z.of_nat (List.length key_lines')) eqn:E.
    + apply Z.leb_le in E.
      assert (Heq : List.length key_lines' = Z.to_nat max_lines) by lia.
      rewrite firstn_app, Heq, Nat.sub_diag. cbn [firstn].
      rewrite app_nil_r. symmetry. apply firstn_all2. lia.
    + apply Z.leb_gt in E. apply IH. lia.
Qed.

(** X30. With a positive budget the loop with its early exit collects the
    first [max_lines] key lines of the file, in their order; the function
    returns them, or the first [max_lines] lines of the file when fewer
    than half the budget were found.  Either way the summary is made of
    lines of the file and is never longer than the budget. *)
Theorem extract_key_patterns_spec lines max_lines :
  1 <= max_lines ->
  let budget := Z.to_nat max_lines in
  let key_lines := firstn budget (filter is_key_line lines) in
  _extract_key_patterns lines max_lines
  = (if Z.of_nat (List.length key_lines) <? max_lines / 2
     then firstn budget lines else key_lines)
  /\ (List.length (_extract_key_patterns lines max_lines) <= budget)%nat
  /\ incl (_extract_key_patterns lines max_lines) lines.
Proof.
  intros Hmax budget key_lines.
  assert (E : _extract_key_patterns lines max_lines
              = if Z.of_nat (List.length key_lines) <? max_lines / 2
                then firstn budget lines else key_lines).
  { unfold _extract_key_patterns, slice_to.
    rewrite collect_key_lines_spec by (cbn [List.length]; lia).
    cbn [app]. fold budget. fold key_lines.
    destruct (0 <=? max_lines) eqn:P; [reflexivity|].
    apply Z.leb_gt in P. lia. }
  split; [exact E|]. rewrite E.
  destruct (_ <? _).
  - split; [apply firstn_le_length|].
    intros x Hx. exact (in_firstn_in _ _ _ Hx).
  - split; [apply firstn_le_length|].
    intros x Hx. subst key_lines. apply in_firstn_in in Hx.
    apply filter_In in Hx. tauto.
Qed.

End KeyPatterns.

Lemma extract_key_patterns_spec_witness :
  _extract_key_patterns sample_lines 4
  = (if Z.of_nat
          (List.length
             (firstn (Z.to_nat 4) (filter is_key_line sample_lines)))
        <? 4 / 2
     then firstn (Z.to_nat 4) sample_lines
     else firstn (Z.to_nat 4) (filter is_key_line sample_lines))
  /\ (List.length (_extract_key_patterns sample_lines 4) <= Z.to_nat 4)%nat
  /\ incl (_extract_key_patterns sample_lines 4) sample_lines.
Proof.
  apply (extract_key_patterns_spec sample_lines 4). lia.
Defined.
